(** * The fastai text tutorial: the notebook, its HTML export and the
      session they demonstrate

    The repository holds two documents: [docs_src/text.ipynb], a Jupyter
    notebook, and [docs/text.html], the page exported from it.  This
    development embeds both as data (the notebook as its list of cells,
    the page as its element tree), the code of the notebook's cells as
    Python syntax trees and as a stateful session, and proves what the
    documents contain and what the session does. *)

From Stdlib Require Import Ascii NArith ZArith Lia.
From stdpp Require Import base strings list gmap pretty.

Local Open Scope N_scope.
Local Open Scope nat_scope.

(** ** Strings of the documents *)

(** A line feed and a double quote, the two characters the text of the
    documents holds that a literal here does not spell. *)
Definition LF : string := String (ascii_of_nat 10) "".
Definition dq : string := String (ascii_of_nat 34) "".

(** [ln s] is the line [s] with its terminator; [lines] joins lines by
    line feeds. *)
Definition ln (s : string) : string := s +:+ LF.
Definition lines (l : list string) : string := String.concat LF l.

(** ** The notebook: [docs_src/text.ipynb] *)

(** An output of a code cell: text written to a stream, or the value of
    the cell's last expression under one or more MIME types. *)
Inductive output : Type :=
| stream (name : string) (text : list string)
| execute_result (data : list (string * list string)).

(** A cell: markdown source, or code with its [hide_input] metadata flag,
    its source and its outputs. *)
Inductive cell : Type :=
| markdown (source : list string)
| code (hide_input : bool) (source : list string) (outputs : list output).

Definition cell_0 : cell :=
  markdown
      ["# Text models, data, and training"].

Definition cell_1 : cell :=
  code true
      ["from fastai.gen_doc.nbdoc import *"]
      [].

Definition cell_2 : cell :=
  markdown
      [ln "The [`text`](/text.html#text) module of the fastai library contains all the necessary functions to define a Dataset suitable for the various NLP (Natural Language Processing) tasks and quickly generate models you can use for them. Specifically:";
       ln "- [`text.transform`](/text.transform.html#text.transform) contains all the scripts to preprocess your data, from raw text to token ids,";
       ln "- [`text.data`](/text.data.html#text.data) contains the definition of [`TextDataset`](/text.data.html#TextDataset), which the main class you'll need in NLP,";
       ln "- [`text.learner`](/text.learner.html#text.learner) contains helper functions to quickly create a language model or an RNN classifier.";
       ln "";
       "Have a look at the links above for full details of the API of each module, of read on for a quick overview."].

Definition cell_3 : cell :=
  markdown
      ["## Quick Start: Training an IMDb sentiment model with *ULMFiT*"].

Definition cell_4 : cell :=
  markdown
      [ln "Let's start with a quick end-to-end example of training a model. We'll train a sentiment classifier on a sample of the popular IMDb data, showing 4 steps:";
       ln "";
       ln "1. Reading and viewing the IMDb data";
       ln "1. Getting your data ready for modeling";
       ln "1. Fine-tuning a language model";
       "1. Building a classifier"].

Definition cell_5 : cell :=
  markdown
      ["### Reading and viewing the IMDb data"].

Definition cell_6 : cell :=
  markdown
      ["First let's import everything we need for text."].

Definition cell_7 : cell :=
  code false
      [ln "from fastai import *";
       "from fastai.text import * "]
      [].

Definition cell_8 : cell :=
  markdown
      [ln "Contrary to images in Computer Vision, text can't directly be transformed into numbers to be fed into a model. The first thing we need to do is to preprocess our data so that we change the raw texts to lists of words, or tokens (a step that is called tokenization) then transform these tokens into numbers (a step that is called numericalization). These numbers are then passed to embedding layers that wil convert them in arrays of floats before passing them through a model.";
       ln "";
       ln "You can find on the web plenty of [Word Embeddings](https://en.wikipedia.org/wiki/Word_embedding) to directly convert your tokens into floats. Those word embeddings have generally be trained on a large corpus such as wikipedia. Following the work of [ULMFiT](https://arxiv.org/abs/1801.06146), the fastai library is more focused on using pre-trained Language Models and fine-tuning them. Word embeddings are just vectors of 300 or 400 floats that represent different words, but a pretrained language model not only has those, but has also been trained to get a representation of full sentences and documents.";
       ln "";
       ln "That's why the library is structured around three steps:";
       ln "";
       ln "1. Get your data preprocessed and ready to use in a minimum amount of code,";
       ln "1. Create a language model with pretrained weights that you can fine-tune to your dataset,";
       ln "1. Create other models such as classifiers on top of the encoder of the language model.";
       ln "";
       "To show examples, we have provided a small sample of the [IMDB dataset](https://www.imdb.com/interfaces/) which contains 1,000 reviews of movies with labels (positive or negative)."].

Definition cell_9 : cell :=
  code false
      [ln "path = untar_data(URLs.IMDB_SAMPLE)";
       "path"]
      [execute_result
         [("text/plain",
           ["PosixPath('/home/ubuntu/.fastai/data/imdb_sample')"])]].

Definition cell_10 : cell :=
  markdown
      [ln "Creating a dataset from your raw texts is very simple if you have it in one of those ways";
       ln "- organized it in folders in an ImageNet style";
       ln "- organized in a csv file with labels columns and a text columns";
       ln "";
       "Here, the sample from imdb is in a train and valid csv files that looks like this:"].

Definition cell_11 : cell :=
  code false
      [ln "df = pd.read_csv(path/'train.csv', header=None)";
       "df.head()"]
      [execute_result
         [("text/html",
           [ln "<div>";
            ln "<style scoped>";
            ln "    .dataframe tbody tr th:only-of-type {";
            ln "        vertical-align: middle;";
            ln "    }";
            ln "";
            ln "    .dataframe tbody tr th {";
            ln "        vertical-align: top;";
            ln "    }";
            ln "";
            ln "    .dataframe thead th {";
            ln "        text-align: right;";
            ln "    }";
            ln "</style>";
            ln ("<table border=" +:+ dq +:+ "1" +:+ dq +:+ " class=" +:+ dq +:+ "dataframe" +:+ dq +:+ ">");
            ln "  <thead>";
            ln ("    <tr style=" +:+ dq +:+ "text-align: right;" +:+ dq +:+ ">");
            ln "      <th></th>";
            ln "      <th>0</th>";
            ln "      <th>1</th>";
            ln "    </tr>";
            ln "  </thead>";
            ln "  <tbody>";
            ln "    <tr>";
            ln "      <th>0</th>";
            ln "      <td>0</td>";
            ln "      <td>Un-bleeping-believable! Meg Ryan doesn't even ...</td>";
            ln "    </tr>";
            ln "    <tr>";
            ln "      <th>1</th>";
            ln "      <td>1</td>";
            ln "      <td>This is a extremely well-made film. The acting...</td>";
            ln "    </tr>";
            ln "    <tr>";
            ln "      <th>2</th>";
            ln "      <td>0</td>";
            ln "      <td>Every once in a long while a movie will come a...</td>";
            ln "    </tr>";
            ln "    <tr>";
            ln "      <th>3</th>";
            ln "      <td>1</td>";
            ln "      <td>Name just says it all. I watched this movie wi...</td>";
            ln "    </tr>";
            ln "    <tr>";
            ln "      <th>4</th>";
            ln "      <td>0</td>";
            ln "      <td>This movie succeeds at being one of the most u...</td>";
            ln "    </tr>";
            ln "  </tbody>";
            ln "</table>";
            "</div>"]);
          ("text/plain",
           [ln "   0                                                  1";
            ln "0  0  Un-bleeping-believable! Meg Ryan doesn't even ...";
            ln "1  1  This is a extremely well-made film. The acting...";
            ln "2  0  Every once in a long while a movie will come a...";
            ln "3  1  Name just says it all. I watched this movie wi...";
            "4  0  This movie succeeds at being one of the most u..."])]].

Definition cell_12 : cell :=
  markdown
      ["Labels are encoded (though we can tell 1 seems to be positive from the bits of comments we see), and the file classes.txt contain the correspondence between index and names."].

Definition cell_13 : cell :=
  code false
      [ln "classes = read_classes(path/'classes.txt')";
       "classes[0], classes[1]"]
      [execute_result
         [("text/plain",
           ["('negative', 'positive')"])]].

Definition cell_14 : cell :=
  markdown
      ["### Getting your data ready for modeling"].

Definition cell_15 : cell :=
  markdown
      ["To create a dataset, we can just use the [`TextDataset.from_df`](/text.data.html#TextDataset.from_df) method. It will automatically do the two step of preprocessing for us. There is more information about those two steps in [`text.transform`](/text.transform.html#text.transform) where you'll also find how to customize the tokenizer from the fastai defaults."].

Definition cell_16 : cell :=
  code true
      [ln "for file in ['train_tok.npy', 'valid_tok.npy']:";
       "    if os.path.exists(path/'tmp'/file): os.remove(path/'tmp'/file)"]
      [].

Definition cell_17 : cell :=
  code false
      ["train_ds = TextDataset.from_df(path, df, classes=classes)"]
      [stream "stdout"
         [ln "Numericalizing train."]].

Definition cell_18 : cell :=
  markdown
      [ln "Note that to avoid redoing this step (which can be quite time-consuming if you have a very large dataset), the fastai library has created a `tmp` directory in the folder given, to store the tokens (in `_tok.npy` files), the labels (in `_lbl.npy` files), the ids of the tokens (in `_id.npy` files) and the dictionary (`itos.pkl`). When you reexecute the line in the future, it will directly load that data.";
       ln "";
       "To get a [`DataBunch`](/basic_data.html#DataBunch) quickly, there are also several factory methods depending on how our data is structured. They are all detailed in [`text.data`](/text.data.html#text.data), here we'll use the method <code>from_csv</code> of the [`TextLMDataBunch`](/text.data.html#TextLMDataBunch) (to get the data ready for a language model) and [`TextClasDataBunch`](/text.data.html#TextClasDataBunch) (to get the data ready for a text classifier) classes."].

Definition cell_19 : cell :=
  code false
      [ln "# Language model data";
       ln "data_lm = TextLMDataBunch.from_csv(path)";
       ln "# Classifier model data";
       "data_clas = TextClasDataBunch.from_csv(path, vocab=data_lm.train_ds.vocab, bs=32)"]
      [stream "stdout"
         [ln "Numericalizing valid."]].

Definition cell_20 : cell :=
  markdown
      [ln "Note that [`TextDataset`](/text.data.html#TextDataset) was called behind the scenes for `train.csv` and `valid.csv` but, as explained earlier, it only preprocessed the validation set, since it had stored the result for the training set.  organize the data. `TextLMDataBunch.from_csv`, prepares the dataset for a language model, while `TextClasDataBunch.from_csv` prepares for a classifier (see the differences in [`text.data`](/text.data.html#text.data)).";
       ln "";
       "For the classifier, we also pass the vocabulary (mapping from ids to words) that we want to use: this is to ensure that `data_clas` will use the same dictionary as `data_lm`."].

Definition cell_21 : cell :=
  markdown
      ["### Fine-tuning a language model"].

Definition cell_22 : cell :=
  markdown
      ["We can use the `data_lm` object we created earlier to fine-tune a pretrained language model. [fast.ai](http://www.fast.ai/) has an English model available that we can download. We can create a learner object that will directly create a model, download the pretrained weights and be ready for fine-tuning."].

Definition cell_23 : cell :=
  code false
      [ln "learn = RNNLearner.language_model(data_lm, pretrained_model=URLs.WT103, drop_mult=0.5)";
       "learn.fit_one_cycle(1, 1e-2)"]
      [stream "stdout"
         [ln "Total time: 00:18";
          ln "epoch  train_loss  valid_loss  accuracy";
          ln "1      4.725450    4.224330    0.245299  (00:18)";
          ln ""]].

Definition cell_24 : cell :=
  markdown
      ["Like a computer vision model, we can then unfreeze the model and fine-tune it."].

Definition cell_25 : cell :=
  code false
      [ln "learn.unfreeze()";
       "learn.fit_one_cycle(1, 1e-3)"]
      [stream "stdout"
         [ln "Total time: 00:22";
          ln "epoch  train_loss  valid_loss  accuracy";
          ln "1      4.452540    4.139244    0.251466  (00:22)";
          ln ""]].

Definition cell_26 : cell :=
  markdown
      ["And finally we save the encoder to be able to use it for classification in the next section."].

Definition cell_27 : cell :=
  code false
      ["learn.save_encoder('ft_enc')"]
      [].

Definition cell_28 : cell :=
  markdown
      ["### Building a classifier"].

Definition cell_29 : cell :=
  markdown
      ["We now use the `data_clas` object we created earlier to build a classifier with our fine-tuned encoder. The learner object can be done in a single line."].

Definition cell_30 : cell :=
  code false
      [ln "learn = RNNLearner.classifier(data_clas, drop_mult=0.5)";
       ln "learn.load_encoder('ft_enc')";
       "learn.fit_one_cycle(1, 1e-2)"]
      [stream "stdout"
         [ln "Total time: 00:24";
          ln "epoch  train_loss  valid_loss  accuracy";
          ln "1      0.612591    0.585682    0.715000  (00:24)";
          ln ""]].

Definition cell_31 : cell :=
  markdown
      ["Again, we can unfreeze the model and fine-tune it."].

Definition cell_32 : cell :=
  code false
      [ln "learn.freeze_to(-2)";
       "learn.fit_one_cycle(1, slice(5e-3/2., 5e-3))"]
      [stream "stdout"
         [ln "Total time: 00:28";
          ln "epoch  train_loss  valid_loss  accuracy";
          ln "1      0.545209    0.526416    0.705000  (00:28)";
          ln ""]].

Definition cell_33 : cell :=
  code false
      [ln "learn.unfreeze()";
       "learn.fit_one_cycle(1, slice(2e-3/100, 2e-3))"]
      [stream "stdout"
         [ln "Total time: 00:54";
          ln "epoch  train_loss  valid_loss  accuracy";
          ln "1      0.448358    0.569745    0.740000  (00:54)";
          ln ""]].

Definition text_ipynb : list cell :=
  [cell_0; cell_1; cell_2; cell_3; cell_4; cell_5; cell_6; cell_7; cell_8; cell_9; cell_10; cell_11; cell_12; cell_13; cell_14; cell_15; cell_16; cell_17; cell_18; cell_19; cell_20; cell_21; cell_22; cell_23; cell_24; cell_25; cell_26; cell_27; cell_28; cell_29; cell_30; cell_31; cell_32; cell_33].

(** ** The exported page: [docs/text.html] *)

(** The element tree of the page: elements with their attributes and
    children, text, and numeric character references.  [text_html]
    below is the element of the page that holds the cells, the
    [notebook-container]. *)
#[warnings="-register-all"]
Inductive html : Type :=
| Elem (tag : string) (attrs : list (string * string)) (kids : list html)
| Text (s : string)
| CharRef (code : N).

Definition html_cell_0 : html :=
  Elem "div" [("class", "cell border-box-sizing text_cell rendered")]
    [Elem "div" [("class", "inner_cell")]
       [Text (ln "");
        Elem "div" [("class", "text_cell_render border-box-sizing rendered_html")]
          [Text (ln "");
           Elem "h1" [("id", "Text-models,-data,-and-training")]
             [Text "Text models, data, and training";
              Elem "a" [("class", "anchor-link"); ("href", "#Text-models,-data,-and-training")]
                [CharRef 182]];
           Text (ln "")];
        Text (ln "")];
     Text (ln "")].

Definition html_cell_1 : html :=
  Elem "div" [("class", "cell border-box-sizing code_cell rendered")] [Text (lines [""; ""; ""])].

Definition html_cell_2 : html :=
  Elem "div" [("class", "cell border-box-sizing text_cell rendered")]
    [Elem "div" [("class", "inner_cell")]
       [Text (ln "");
        Elem "div" [("class", "text_cell_render border-box-sizing rendered_html")]
          [Text (ln "");
           Elem "p" []
             [Text "The ";
              Elem "a" [("href", "/text.html#text")] [Elem "code" [] [Text "text"]];
              Text " module of the fastai library contains all the necessary functions to define a Dataset suitable for the various NLP (Natural Language Processing) tasks and quickly generate models you can use for them. Specifically:"];
           Text (ln "");
           Elem "ul" []
             [Text (ln "");
              Elem "li" []
                [Elem "a" [("href", "/text.transform.html#text.transform")]
                   [Elem "code" [] [Text "text.transform"]];
                 Text " contains all the scripts to preprocess your data, from raw text to token ids,"];
              Text (ln "");
              Elem "li" []
                [Elem "a" [("href", "/text.data.html#text.data")]
                   [Elem "code" [] [Text "text.data"]];
                 Text " contains the definition of ";
                 Elem "a" [("href", "/text.data.html#TextDataset")]
                   [Elem "code" [] [Text "TextDataset"]];
                 Text ", which the main class you'll need in NLP,"];
              Text (ln "");
              Elem "li" []
                [Elem "a" [("href", "/text.learner.html#text.learner")]
                   [Elem "code" [] [Text "text.learner"]];
                 Text " contains helper functions to quickly create a language model or an RNN classifier."];
              Text (ln "")];
           Text (ln "");
           Elem "p" []
             [Text "Have a look at the links above for full details of the API of each module, of read on for a quick overview."];
           Text (lines [""; ""; ""])];
        Text (ln "")];
     Text (ln "")].

Definition html_cell_3 : html :=
  Elem "div" [("class", "cell border-box-sizing text_cell rendered")]
    [Elem "div" [("class", "inner_cell")]
       [Text (ln "");
        Elem "div" [("class", "text_cell_render border-box-sizing rendered_html")]
          [Text (ln "");
           Elem "h2" [("id", "Quick-Start:-Training-an-IMDb-sentiment-model-with-ULMFiT")]
             [Text "Quick Start: Training an IMDb sentiment model with ";
              Elem "em" [] [Text "ULMFiT"];
              Elem "a" [("class", "anchor-link"); ("href", "#Quick-Start:-Training-an-IMDb-sentiment-model-with-ULMFiT")]
                [CharRef 182]];
           Text (ln "")];
        Text (ln "")];
     Text (ln "")].

Definition html_cell_4 : html :=
  Elem "div" [("class", "cell border-box-sizing text_cell rendered")]
    [Elem "div" [("class", "inner_cell")]
       [Text (ln "");
        Elem "div" [("class", "text_cell_render border-box-sizing rendered_html")]
          [Text (ln "");
           Elem "p" []
             [Text "Let's start with a quick end-to-end example of training a model. We'll train a sentiment classifier on a sample of the popular IMDb data, showing 4 steps:"];
           Text (ln "");
           Elem "ol" []
             [Text (ln "");
              Elem "li" [] [Text "Reading and viewing the IMDb data"];
              Text (ln "");
              Elem "li" [] [Text "Getting your data ready for modeling"];
              Text (ln "");
              Elem "li" [] [Text "Fine-tuning a language model"];
              Text (ln "");
              Elem "li" [] [Text "Building a classifier"];
              Text (ln "")];
           Text (lines [""; ""; ""])];
        Text (ln "")];
     Text (ln "")].

Definition html_cell_5 : html :=
  Elem "div" [("class", "cell border-box-sizing text_cell rendered")]
    [Elem "div" [("class", "inner_cell")]
       [Text (ln "");
        Elem "div" [("class", "text_cell_render border-box-sizing rendered_html")]
          [Text (ln "");
           Elem "h3" [("id", "Reading-and-viewing-the-IMDb-data")]
             [Text "Reading and viewing the IMDb data";
              Elem "a" [("class", "anchor-link"); ("href", "#Reading-and-viewing-the-IMDb-data")]
                [CharRef 182]];
           Text (ln "")];
        Text (ln "")];
     Text (ln "")].

Definition html_cell_6 : html :=
  Elem "div" [("class", "cell border-box-sizing text_cell rendered")]
    [Elem "div" [("class", "inner_cell")]
       [Text (ln "");
        Elem "div" [("class", "text_cell_render border-box-sizing rendered_html")]
          [Text (ln "");
           Elem "p" [] [Text "First let's import everything we need for text."];
           Text (lines [""; ""; ""])];
        Text (ln "")];
     Text (ln "")].

Definition html_cell_7 : html :=
  Elem "div" [("class", "cell border-box-sizing code_cell rendered")]
    [Text (ln "");
     Elem "div" [("class", "input")]
       [Text (lines [""; ""; ""]);
        Elem "div" [("class", "inner_cell")]
          [Text (lines [""; "    "]);
           Elem "div" [("class", "input_area")]
             [Text (ln "");
              Elem "div" [("class", " highlight hl-ipython3")]
                [Elem "pre" []
                   [Elem "span" [] [];
                    Elem "span" [("class", "kn")] [Text "from"];
                    Text " ";
                    Elem "span" [("class", "nn")] [Text "fastai"];
                    Text " ";
                    Elem "span" [("class", "k")] [Text "import"];
                    Text " ";
                    Elem "span" [("class", "o")] [Text "*"];
                    Text (ln "");
                    Elem "span" [("class", "kn")] [Text "from"];
                    Text " ";
                    Elem "span" [("class", "nn")] [Text "fastai.text"];
                    Text " ";
                    Elem "span" [("class", "k")] [Text "import"];
                    Text " ";
                    Elem "span" [("class", "o")] [Text "*"];
                    Text (ln " ")]];
              Text (lines [""; ""; ""])];
           Text (ln "")];
        Text (ln "")];
     Text (lines [""; ""; ""])].

Definition html_cell_8 : html :=
  Elem "div" [("class", "cell border-box-sizing text_cell rendered")]
    [Elem "div" [("class", "inner_cell")]
       [Text (ln "");
        Elem "div" [("class", "text_cell_render border-box-sizing rendered_html")]
          [Text (ln "");
           Elem "p" []
             [Text "Contrary to images in Computer Vision, text can't directly be transformed into numbers to be fed into a model. The first thing we need to do is to preprocess our data so that we change the raw texts to lists of words, or tokens (a step that is called tokenization) then transform these tokens into numbers (a step that is called numericalization). These numbers are then passed to embedding layers that wil convert them in arrays of floats before passing them through a model."];
           Text (ln "");
           Elem "p" []
             [Text "You can find on the web plenty of ";
              Elem "a" [("href", "https://en.wikipedia.org/wiki/Word_embedding")]
                [Text "Word Embeddings"];
              Text " to directly convert your tokens into floats. Those word embeddings have generally be trained on a large corpus such as wikipedia. Following the work of ";
              Elem "a" [("href", "https://arxiv.org/abs/1801.06146")] [Text "ULMFiT"];
              Text ", the fastai library is more focused on using pre-trained Language Models and fine-tuning them. Word embeddings are just vectors of 300 or 400 floats that represent different words, but a pretrained language model not only has those, but has also been trained to get a representation of full sentences and documents."];
           Text (ln "");
           Elem "p" [] [Text "That's why the library is structured around three steps:"];
           Text (ln "");
           Elem "ol" []
             [Text (ln "");
              Elem "li" []
                [Text "Get your data preprocessed and ready to use in a minimum amount of code,"];
              Text (ln "");
              Elem "li" []
                [Text "Create a language model with pretrained weights that you can fine-tune to your dataset,"];
              Text (ln "");
              Elem "li" []
                [Text "Create other models such as classifiers on top of the encoder of the language model."];
              Text (ln "")];
           Text (ln "");
           Elem "p" []
             [Text "To show examples, we have provided a small sample of the ";
              Elem "a" [("href", "https://www.imdb.com/interfaces/")] [Text "IMDB dataset"];
              Text " which contains 1,000 reviews of movies with labels (positive or negative)."];
           Text (lines [""; ""; ""])];
        Text (ln "")];
     Text (ln "")].

Definition html_cell_9 : html :=
  Elem "div" [("class", "cell border-box-sizing code_cell rendered")]
    [Text (ln "");
     Elem "div" [("class", "input")]
       [Text (lines [""; ""; ""]);
        Elem "div" [("class", "inner_cell")]
          [Text (lines [""; "    "]);
           Elem "div" [("class", "input_area")]
             [Text (ln "");
              Elem "div" [("class", " highlight hl-ipython3")]
                [Elem "pre" []
                   [Elem "span" [] [];
                    Elem "span" [("class", "n")] [Text "path"];
                    Text " ";
                    Elem "span" [("class", "o")] [Text "="];
                    Text " ";
                    Elem "span" [("class", "n")] [Text "untar_data"];
                    Elem "span" [("class", "p")] [Text "("];
                    Elem "span" [("class", "n")] [Text "URLs"];
                    Elem "span" [("class", "o")] [Text "."];
                    Elem "span" [("class", "n")] [Text "IMDB_SAMPLE"];
                    Elem "span" [("class", "p")] [Text ")"];
                    Text (ln "");
                    Elem "span" [("class", "n")] [Text "path"];
                    Text (ln "")]];
              Text (lines [""; ""; ""])];
           Text (ln "")];
        Text (ln "")];
     Text (lines [""; ""; ""]);
     Elem "div" [("class", "output_wrapper")]
       [Text (ln "");
        Elem "div" [("class", "output")]
          [Text (lines [""; ""; ""]);
           Elem "div" [("class", "output_area")]
             [Text (lines [""; ""; ""; ""; ""]);
              Elem "div" [("class", "output_text output_subarea output_execute_result")]
                [Text (ln "");
                 Elem "pre" []
                   [Text "PosixPath(";
                    CharRef 39;
                    Text "/home/ubuntu/.fastai/data/imdb_sample";
                    CharRef 39;
                    Text ")"];
                 Text (ln "")];
              Text (lines [""; ""; ""])];
           Text (lines [""; ""; ""])];
        Text (ln "")];
     Text (lines [""; ""; ""])].

Definition html_cell_10 : html :=
  Elem "div" [("class", "cell border-box-sizing text_cell rendered")]
    [Elem "div" [("class", "inner_cell")]
       [Text (ln "");
        Elem "div" [("class", "text_cell_render border-box-sizing rendered_html")]
          [Text (ln "");
           Elem "p" []
             [Text "Creating a dataset from your raw texts is very simple if you have it in one of those ways"];
           Text (ln "");
           Elem "ul" []
             [Text (ln "");
              Elem "li" [] [Text "organized it in folders in an ImageNet style"];
              Text (ln "");
              Elem "li" [] [Text "organized in a csv file with labels columns and a text columns"];
              Text (ln "")];
           Text (ln "");
           Elem "p" []
             [Text "Here, the sample from imdb is in a train and valid csv files that looks like this:"];
           Text (lines [""; ""; ""])];
        Text (ln "")];
     Text (ln "")].

Definition html_cell_11 : html :=
  Elem "div" [("class", "cell border-box-sizing code_cell rendered")]
    [Text (ln "");
     Elem "div" [("class", "input")]
       [Text (lines [""; ""; ""]);
        Elem "div" [("class", "inner_cell")]
          [Text (lines [""; "    "]);
           Elem "div" [("class", "input_area")]
             [Text (ln "");
              Elem "div" [("class", " highlight hl-ipython3")]
                [Elem "pre" []
                   [Elem "span" [] [];
                    Elem "span" [("class", "n")] [Text "df"];
                    Text " ";
                    Elem "span" [("class", "o")] [Text "="];
                    Text " ";
                    Elem "span" [("class", "n")] [Text "pd"];
                    Elem "span" [("class", "o")] [Text "."];
                    Elem "span" [("class", "n")] [Text "read_csv"];
                    Elem "span" [("class", "p")] [Text "("];
                    Elem "span" [("class", "n")] [Text "path"];
                    Elem "span" [("class", "o")] [Text "/"];
                    Elem "span" [("class", "s1")] [CharRef 39; Text "train.csv"; CharRef 39];
                    Elem "span" [("class", "p")] [Text ","];
                    Text " ";
                    Elem "span" [("class", "n")] [Text "header"];
                    Elem "span" [("class", "o")] [Text "="];
                    Elem "span" [("class", "kc")] [Text "None"];
                    Elem "span" [("class", "p")] [Text ")"];
                    Text (ln "");
                    Elem "span" [("class", "n")] [Text "df"];
                    Elem "span" [("class", "o")] [Text "."];
                    Elem "span" [("class", "n")] [Text "head"];
                    Elem "span" [("class", "p")] [Text "()"];
                    Text (ln "")]];
              Text (lines [""; ""; ""])];
           Text (ln "")];
        Text (ln "")];
     Text (lines [""; ""; ""]);
     Elem "div" [("class", "output_wrapper")]
       [Text (ln "");
        Elem "div" [("class", "output")]
          [Text (lines [""; ""; ""]);
           Elem "div" [("class", "output_area")]
             [Text (lines [""; ""; ""; ""]);
              Elem "div" [("class", "output_html rendered_html output_subarea output_execute_result")]
                [Text (ln "");
                 Elem "div" []
                   [Text (ln "");
                    Elem "style" [("scoped", "")]
                      [Text (lines [""; "    .dataframe tbody tr th:only-of-type {"; "        vertical-align: middle;"; "    }"; ""; "    .dataframe tbody tr th {"; "        vertical-align: top;"; "    }"; ""; "    .dataframe thead th {"; "        text-align: right;"; "    }"; ""])];
                    Text (ln "");
                    Elem "table" [("border", "1"); ("class", "dataframe")]
                      [Text (lines [""; "  "]);
                       Elem "thead" []
                         [Text (lines [""; "    "]);
                          Elem "tr" [("style", "text-align: right;")]
                            [Text (lines [""; "      "]);
                             Elem "th" [] [];
                             Text (lines [""; "      "]);
                             Elem "th" [] [Text "0"];
                             Text (lines [""; "      "]);
                             Elem "th" [] [Text "1"];
                             Text (lines [""; "    "])];
                          Text (lines [""; "  "])];
                       Text (lines [""; "  "]);
                       Elem "tbody" []
                         [Text (lines [""; "    "]);
                          Elem "tr" []
                            [Text (lines [""; "      "]);
                             Elem "th" [] [Text "0"];
                             Text (lines [""; "      "]);
                             Elem "td" [] [Text "0"];
                             Text (lines [""; "      "]);
                             Elem "td" [] [Text "Un-bleeping-believable! Meg Ryan doesn't even ..."];
                             Text (lines [""; "    "])];
                          Text (lines [""; "    "]);
                          Elem "tr" []
                            [Text (lines [""; "      "]);
                             Elem "th" [] [Text "1"];
                             Text (lines [""; "      "]);
                             Elem "td" [] [Text "1"];
                             Text (lines [""; "      "]);
                             Elem "td" [] [Text "This is a extremely well-made film. The acting..."];
                             Text (lines [""; "    "])];
                          Text (lines [""; "    "]);
                          Elem "tr" []
                            [Text (lines [""; "      "]);
                             Elem "th" [] [Text "2"];
                             Text (lines [""; "      "]);
                             Elem "td" [] [Text "0"];
                             Text (lines [""; "      "]);
                             Elem "td" [] [Text "Every once in a long while a movie will come a..."];
                             Text (lines [""; "    "])];
                          Text (lines [""; "    "]);
                          Elem "tr" []
                            [Text (lines [""; "      "]);
                             Elem "th" [] [Text "3"];
                             Text (lines [""; "      "]);
                             Elem "td" [] [Text "1"];
                             Text (lines [""; "      "]);
                             Elem "td" [] [Text "Name just says it all. I watched this movie wi..."];
                             Text (lines [""; "    "])];
                          Text (lines [""; "    "]);
                          Elem "tr" []
                            [Text (lines [""; "      "]);
                             Elem "th" [] [Text "4"];
                             Text (lines [""; "      "]);
                             Elem "td" [] [Text "0"];
                             Text (lines [""; "      "]);
                             Elem "td" [] [Text "This movie succeeds at being one of the most u..."];
                             Text (lines [""; "    "])];
                          Text (lines [""; "  "])];
                       Text (ln "")];
                    Text (ln "")];
                 Text (ln "")];
              Text (lines [""; ""; ""])];
           Text (lines [""; ""; ""])];
        Text (ln "")];
     Text (lines [""; ""; ""])].

Definition html_cell_12 : html :=
  Elem "div" [("class", "cell border-box-sizing text_cell rendered")]
    [Elem "div" [("class", "inner_cell")]
       [Text (ln "");
        Elem "div" [("class", "text_cell_render border-box-sizing rendered_html")]
          [Text (ln "");
           Elem "p" []
             [Text "Labels are encoded (though we can tell 1 seems to be positive from the bits of comments we see), and the file classes.txt contain the correspondence between index and names."];
           Text (lines [""; ""; ""])];
        Text (ln "")];
     Text (ln "")].

Definition html_cell_13 : html :=
  Elem "div" [("class", "cell border-box-sizing code_cell rendered")]
    [Text (ln "");
     Elem "div" [("class", "input")]
       [Text (lines [""; ""; ""]);
        Elem "div" [("class", "inner_cell")]
          [Text (lines [""; "    "]);
           Elem "div" [("class", "input_area")]
             [Text (ln "");
              Elem "div" [("class", " highlight hl-ipython3")]
                [Elem "pre" []
                   [Elem "span" [] [];
                    Elem "span" [("class", "n")] [Text "classes"];
                    Text " ";
                    Elem "span" [("class", "o")] [Text "="];
                    Text " ";
                    Elem "span" [("class", "n")] [Text "read_classes"];
                    Elem "span" [("class", "p")] [Text "("];
                    Elem "span" [("class", "n")] [Text "path"];
                    Elem "span" [("class", "o")] [Text "/"];
                    Elem "span" [("class", "s1")] [CharRef 39; Text "classes.txt"; CharRef 39];
                    Elem "span" [("class", "p")] [Text ")"];
                    Text (ln "");
                    Elem "span" [("class", "n")] [Text "classes"];
                    Elem "span" [("class", "p")] [Text "["];
                    Elem "span" [("class", "mi")] [Text "0"];
                    Elem "span" [("class", "p")] [Text "],"];
                    Text " ";
                    Elem "span" [("class", "n")] [Text "classes"];
                    Elem "span" [("class", "p")] [Text "["];
                    Elem "span" [("class", "mi")] [Text "1"];
                    Elem "span" [("class", "p")] [Text "]"];
                    Text (ln "")]];
              Text (lines [""; ""; ""])];
           Text (ln "")];
        Text (ln "")];
     Text (lines [""; ""; ""]);
     Elem "div" [("class", "output_wrapper")]
       [Text (ln "");
        Elem "div" [("class", "output")]
          [Text (lines [""; ""; ""]);
           Elem "div" [("class", "output_area")]
             [Text (lines [""; ""; ""; ""; ""]);
              Elem "div" [("class", "output_text output_subarea output_execute_result")]
                [Text (ln "");
                 Elem "pre" []
                   [Text "(";
                    CharRef 39;
                    Text "negative";
                    CharRef 39;
                    Text ", ";
                    CharRef 39;
                    Text "positive";
                    CharRef 39;
                    Text ")"];
                 Text (ln "")];
              Text (lines [""; ""; ""])];
           Text (lines [""; ""; ""])];
        Text (ln "")];
     Text (lines [""; ""; ""])].

Definition html_cell_14 : html :=
  Elem "div" [("class", "cell border-box-sizing text_cell rendered")]
    [Elem "div" [("class", "inner_cell")]
       [Text (ln "");
        Elem "div" [("class", "text_cell_render border-box-sizing rendered_html")]
          [Text (ln "");
           Elem "h3" [("id", "Getting-your-data-ready-for-modeling")]
             [Text "Getting your data ready for modeling";
              Elem "a" [("class", "anchor-link"); ("href", "#Getting-your-data-ready-for-modeling")]
                [CharRef 182]];
           Text (ln "")];
        Text (ln "")];
     Text (ln "")].

Definition html_cell_15 : html :=
  Elem "div" [("class", "cell border-box-sizing text_cell rendered")]
    [Elem "div" [("class", "inner_cell")]
       [Text (ln "");
        Elem "div" [("class", "text_cell_render border-box-sizing rendered_html")]
          [Text (ln "");
           Elem "p" []
             [Text "To create a dataset, we can just use the ";
              Elem "a" [("href", "/text.data.html#TextDataset.from_df")]
                [Elem "code" [] [Text "TextDataset.from_df"]];
              Text " method. It will automatically do the two step of preprocessing for us. There is more information about those two steps in ";
              Elem "a" [("href", "/text.transform.html#text.transform")]
                [Elem "code" [] [Text "text.transform"]];
              Text " where you'll also find how to customize the tokenizer from the fastai defaults."];
           Text (lines [""; ""; ""])];
        Text (ln "")];
     Text (ln "")].

Definition html_cell_16 : html :=
  Elem "div" [("class", "cell border-box-sizing code_cell rendered")] [Text (lines [""; ""; ""])].

Definition html_cell_17 : html :=
  Elem "div" [("class", "cell border-box-sizing code_cell rendered")]
    [Text (ln "");
     Elem "div" [("class", "input")]
       [Text (lines [""; ""; ""]);
        Elem "div" [("class", "inner_cell")]
          [Text (lines [""; "    "]);
           Elem "div" [("class", "input_area")]
             [Text (ln "");
              Elem "div" [("class", " highlight hl-ipython3")]
                [Elem "pre" []
                   [Elem "span" [] [];
                    Elem "span" [("class", "n")] [Text "train_ds"];
                    Text " ";
                    Elem "span" [("class", "o")] [Text "="];
                    Text " ";
                    Elem "span" [("class", "n")] [Text "TextDataset"];
                    Elem "span" [("class", "o")] [Text "."];
                    Elem "span" [("class", "n")] [Text "from_df"];
                    Elem "span" [("class", "p")] [Text "("];
                    Elem "span" [("class", "n")] [Text "path"];
                    Elem "span" [("class", "p")] [Text ","];
                    Text " ";
                    Elem "span" [("class", "n")] [Text "df"];
                    Elem "span" [("class", "p")] [Text ","];
                    Text " ";
                    Elem "span" [("class", "n")] [Text "classes"];
                    Elem "span" [("class", "o")] [Text "="];
                    Elem "span" [("class", "n")] [Text "classes"];
                    Elem "span" [("class", "p")] [Text ")"];
                    Text (ln "")]];
              Text (lines [""; ""; ""])];
           Text (ln "")];
        Text (ln "")];
     Text (lines [""; ""; ""]);
     Elem "div" [("class", "output_wrapper")]
       [Text (ln "");
        Elem "div" [("class", "output")]
          [Text (lines [""; ""; ""]);
           Elem "div" [("class", "output_area")]
             [Text (lines [""; ""; ""]);
              Elem "div" [("class", "output_subarea output_stream output_stdout output_text")]
                [Text (ln "");
                 Elem "pre" [] [Text (ln "Numericalizing train.")];
                 Text (ln "")];
              Text (ln "")];
           Text (lines [""; ""; ""])];
        Text (ln "")];
     Text (lines [""; ""; ""])].

Definition html_cell_18 : html :=
  Elem "div" [("class", "cell border-box-sizing text_cell rendered")]
    [Elem "div" [("class", "inner_cell")]
       [Text (ln "");
        Elem "div" [("class", "text_cell_render border-box-sizing rendered_html")]
          [Text (ln "");
           Elem "p" []
             [Text "Note that to avoid redoing this step (which can be quite time-consuming if you have a very large dataset), the fastai library has created a ";
              Elem "code" [] [Text "tmp"];
              Text " directory in the folder given, to store the tokens (in ";
              Elem "code" [] [Text "_tok.npy"];
              Text " files), the labels (in ";
              Elem "code" [] [Text "_lbl.npy"];
              Text " files), the ids of the tokens (in ";
              Elem "code" [] [Text "_id.npy"];
              Text " files) and the dictionary (";
              Elem "code" [] [Text "itos.pkl"];
              Text "). When you reexecute the line in the future, it will directly load that data."];
           Text (ln "");
           Elem "p" []
             [Text "To get a ";
              Elem "a" [("href", "/basic_data.html#DataBunch")] [Elem "code" [] [Text "DataBunch"]];
              Text " quickly, there are also several factory methods depending on how our data is structured. They are all detailed in ";
              Elem "a" [("href", "/text.data.html#text.data")] [Elem "code" [] [Text "text.data"]];
              Text ", here we'll use the method ";
              Elem "code" [] [Text "from_csv"];
              Text " of the ";
              Elem "a" [("href", "/text.data.html#TextLMDataBunch")]
                [Elem "code" [] [Text "TextLMDataBunch"]];
              Text " (to get the data ready for a language model) and ";
              Elem "a" [("href", "/text.data.html#TextClasDataBunch")]
                [Elem "code" [] [Text "TextClasDataBunch"]];
              Text " (to get the data ready for a text classifier) classes."];
           Text (lines [""; ""; ""])];
        Text (ln "")];
     Text (ln "")].

Definition html_cell_19 : html :=
  Elem "div" [("class", "cell border-box-sizing code_cell rendered")]
    [Text (ln "");
     Elem "div" [("class", "input")]
       [Text (lines [""; ""; ""]);
        Elem "div" [("class", "inner_cell")]
          [Text (lines [""; "    "]);
           Elem "div" [("class", "input_area")]
             [Text (ln "");
              Elem "div" [("class", " highlight hl-ipython3")]
                [Elem "pre" []
                   [Elem "span" [] [];
                    Elem "span" [("class", "c1")] [Text "# Language model data"];
                    Text (ln "");
                    Elem "span" [("class", "n")] [Text "data_lm"];
                    Text " ";
                    Elem "span" [("class", "o")] [Text "="];
                    Text " ";
                    Elem "span" [("class", "n")] [Text "TextLMDataBunch"];
                    Elem "span" [("class", "o")] [Text "."];
                    Elem "span" [("class", "n")] [Text "from_csv"];
                    Elem "span" [("class", "p")] [Text "("];
                    Elem "span" [("class", "n")] [Text "path"];
                    Elem "span" [("class", "p")] [Text ")"];
                    Text (ln "");
                    Elem "span" [("class", "c1")] [Text "# Classifier model data"];
                    Text (ln "");
                    Elem "span" [("class", "n")] [Text "data_clas"];
                    Text " ";
                    Elem "span" [("class", "o")] [Text "="];
                    Text " ";
                    Elem "span" [("class", "n")] [Text "TextClasDataBunch"];
                    Elem "span" [("class", "o")] [Text "."];
                    Elem "span" [("class", "n")] [Text "from_csv"];
                    Elem "span" [("class", "p")] [Text "("];
                    Elem "span" [("class", "n")] [Text "path"];
                    Elem "span" [("class", "p")] [Text ","];
                    Text " ";
                    Elem "span" [("class", "n")] [Text "vocab"];
                    Elem "span" [("class", "o")] [Text "="];
                    Elem "span" [("class", "n")] [Text "data_lm"];
                    Elem "span" [("class", "o")] [Text "."];
                    Elem "span" [("class", "n")] [Text "train_ds"];
                    Elem "span" [("class", "o")] [Text "."];
                    Elem "span" [("class", "n")] [Text "vocab"];
                    Elem "span" [("class", "p")] [Text ","];
                    Text " ";
                    Elem "span" [("class", "n")] [Text "bs"];
                    Elem "span" [("class", "o")] [Text "="];
                    Elem "span" [("class", "mi")] [Text "32"];
                    Elem "span" [("class", "p")] [Text ")"];
                    Text (ln "")]];
              Text (lines [""; ""; ""])];
           Text (ln "")];
        Text (ln "")];
     Text (lines [""; ""; ""]);
     Elem "div" [("class", "output_wrapper")]
       [Text (ln "");
        Elem "div" [("class", "output")]
          [Text (lines [""; ""; ""]);
           Elem "div" [("class", "output_area")]
             [Text (lines [""; ""; ""]);
              Elem "div" [("class", "output_subarea output_stream output_stdout output_text")]
                [Text (ln "");
                 Elem "pre" [] [Text (ln "Numericalizing valid.")];
                 Text (ln "")];
              Text (ln "")];
           Text (lines [""; ""; ""])];
        Text (ln "")];
     Text (lines [""; ""; ""])].

Definition html_cell_20 : html :=
  Elem "div" [("class", "cell border-box-sizing text_cell rendered")]
    [Elem "div" [("class", "inner_cell")]
       [Text (ln "");
        Elem "div" [("class", "text_cell_render border-box-sizing rendered_html")]
          [Text (ln "");
           Elem "p" []
             [Text "Note that ";
              Elem "a" [("href", "/text.data.html#TextDataset")]
                [Elem "code" [] [Text "TextDataset"]];
              Text " was called behind the scenes for ";
              Elem "code" [] [Text "train.csv"];
              Text " and ";
              Elem "code" [] [Text "valid.csv"];
              Text " but, as explained earlier, it only preprocessed the validation set, since it had stored the result for the training set.  organize the data. ";
              Elem "code" [] [Text "TextLMDataBunch.from_csv"];
              Text ", prepares the dataset for a language model, while ";
              Elem "code" [] [Text "TextClasDataBunch.from_csv"];
              Text " prepares for a classifier (see the differences in ";
              Elem "a" [("href", "/text.data.html#text.data")] [Elem "code" [] [Text "text.data"]];
              Text ")."];
           Text (ln "");
           Elem "p" []
             [Text "For the classifier, we also pass the vocabulary (mapping from ids to words) that we want to use: this is to ensure that ";
              Elem "code" [] [Text "data_clas"];
              Text " will use the same dictionary as ";
              Elem "code" [] [Text "data_lm"];
              Text "."];
           Text (lines [""; ""; ""])];
        Text (ln "")];
     Text (ln "")].

Definition html_cell_21 : html :=
  Elem "div" [("class", "cell border-box-sizing text_cell rendered")]
    [Elem "div" [("class", "inner_cell")]
       [Text (ln "");
        Elem "div" [("class", "text_cell_render border-box-sizing rendered_html")]
          [Text (ln "");
           Elem "h3" [("id", "Fine-tuning-a-language-model")]
             [Text "Fine-tuning a language model";
              Elem "a" [("class", "anchor-link"); ("href", "#Fine-tuning-a-language-model")]
                [CharRef 182]];
           Text (ln "")];
        Text (ln "")];
     Text (ln "")].

Definition html_cell_22 : html :=
  Elem "div" [("class", "cell border-box-sizing text_cell rendered")]
    [Elem "div" [("class", "inner_cell")]
       [Text (ln "");
        Elem "div" [("class", "text_cell_render border-box-sizing rendered_html")]
          [Text (ln "");
           Elem "p" []
             [Text "We can use the ";
              Elem "code" [] [Text "data_lm"];
              Text " object we created earlier to fine-tune a pretrained language model. ";
              Elem "a" [("href", "http://www.fast.ai/")] [Text "fast.ai"];
              Text " has an English model available that we can download. We can create a learner object that will directly create a model, download the pretrained weights and be ready for fine-tuning."];
           Text (lines [""; ""; ""])];
        Text (ln "")];
     Text (ln "")].

Definition html_cell_23 : html :=
  Elem "div" [("class", "cell border-box-sizing code_cell rendered")]
    [Text (ln "");
     Elem "div" [("class", "input")]
       [Text (lines [""; ""; ""]);
        Elem "div" [("class", "inner_cell")]
          [Text (lines [""; "    "]);
           Elem "div" [("class", "input_area")]
             [Text (ln "");
              Elem "div" [("class", " highlight hl-ipython3")]
                [Elem "pre" []
                   [Elem "span" [] [];
                    Elem "span" [("class", "n")] [Text "learn"];
                    Text " ";
                    Elem "span" [("class", "o")] [Text "="];
                    Text " ";
                    Elem "span" [("class", "n")] [Text "RNNLearner"];
                    Elem "span" [("class", "o")] [Text "."];
                    Elem "span" [("class", "n")] [Text "language_model"];
                    Elem "span" [("class", "p")] [Text "("];
                    Elem "span" [("class", "n")] [Text "data_lm"];
                    Elem "span" [("class", "p")] [Text ","];
                    Text " ";
                    Elem "span" [("class", "n")] [Text "pretrained_model"];
                    Elem "span" [("class", "o")] [Text "="];
                    Elem "span" [("class", "n")] [Text "URLs"];
                    Elem "span" [("class", "o")] [Text "."];
                    Elem "span" [("class", "n")] [Text "WT103"];
                    Elem "span" [("class", "p")] [Text ","];
                    Text " ";
                    Elem "span" [("class", "n")] [Text "drop_mult"];
                    Elem "span" [("class", "o")] [Text "="];
                    Elem "span" [("class", "mf")] [Text "0.5"];
                    Elem "span" [("class", "p")] [Text ")"];
                    Text (ln "");
                    Elem "span" [("class", "n")] [Text "learn"];
                    Elem "span" [("class", "o")] [Text "."];
                    Elem "span" [("class", "n")] [Text "fit_one_cycle"];
                    Elem "span" [("class", "p")] [Text "("];
                    Elem "span" [("class", "mi")] [Text "1"];
                    Elem "span" [("class", "p")] [Text ","];
                    Text " ";
                    Elem "span" [("class", "mf")] [Text "1e-2"];
                    Elem "span" [("class", "p")] [Text ")"];
                    Text (ln "")]];
              Text (lines [""; ""; ""])];
           Text (ln "")];
        Text (ln "")];
     Text (lines [""; ""; ""]);
     Elem "div" [("class", "output_wrapper")]
       [Text (ln "");
        Elem "div" [("class", "output")]
          [Text (lines [""; ""; ""]);
           Elem "div" [("class", "output_area")]
             [Text (lines [""; ""; ""]);
              Elem "div" [("class", "output_subarea output_stream output_stdout output_text")]
                [Text (ln "");
                 Elem "pre" []
                   [Text (lines ["Total time: 00:18"; "epoch  train_loss  valid_loss  accuracy"; "1      4.725450    4.224330    0.245299  (00:18)"; ""; ""])];
                 Text (ln "")];
              Text (ln "")];
           Text (lines [""; ""; ""])];
        Text (ln "")];
     Text (lines [""; ""; ""])].

Definition html_cell_24 : html :=
  Elem "div" [("class", "cell border-box-sizing text_cell rendered")]
    [Elem "div" [("class", "inner_cell")]
       [Text (ln "");
        Elem "div" [("class", "text_cell_render border-box-sizing rendered_html")]
          [Text (ln "");
           Elem "p" []
             [Text "Like a computer vision model, we can then unfreeze the model and fine-tune it."];
           Text (lines [""; ""; ""])];
        Text (ln "")];
     Text (ln "")].

Definition html_cell_25 : html :=
  Elem "div" [("class", "cell border-box-sizing code_cell rendered")]
    [Text (ln "");
     Elem "div" [("class", "input")]
       [Text (lines [""; ""; ""]);
        Elem "div" [("class", "inner_cell")]
          [Text (lines [""; "    "]);
           Elem "div" [("class", "input_area")]
             [Text (ln "");
              Elem "div" [("class", " highlight hl-ipython3")]
                [Elem "pre" []
                   [Elem "span" [] [];
                    Elem "span" [("class", "n")] [Text "learn"];
                    Elem "span" [("class", "o")] [Text "."];
                    Elem "span" [("class", "n")] [Text "unfreeze"];
                    Elem "span" [("class", "p")] [Text "()"];
                    Text (ln "");
                    Elem "span" [("class", "n")] [Text "learn"];
                    Elem "span" [("class", "o")] [Text "."];
                    Elem "span" [("class", "n")] [Text "fit_one_cycle"];
                    Elem "span" [("class", "p")] [Text "("];
                    Elem "span" [("class", "mi")] [Text "1"];
                    Elem "span" [("class", "p")] [Text ","];
                    Text " ";
                    Elem "span" [("class", "mf")] [Text "1e-3"];
                    Elem "span" [("class", "p")] [Text ")"];
                    Text (ln "")]];
              Text (lines [""; ""; ""])];
           Text (ln "")];
        Text (ln "")];
     Text (lines [""; ""; ""]);
     Elem "div" [("class", "output_wrapper")]
       [Text (ln "");
        Elem "div" [("class", "output")]
          [Text (lines [""; ""; ""]);
           Elem "div" [("class", "output_area")]
             [Text (lines [""; ""; ""]);
              Elem "div" [("class", "output_subarea output_stream output_stdout output_text")]
                [Text (ln "");
                 Elem "pre" []
                   [Text (lines ["Total time: 00:22"; "epoch  train_loss  valid_loss  accuracy"; "1      4.452540    4.139244    0.251466  (00:22)"; ""; ""])];
                 Text (ln "")];
              Text (ln "")];
           Text (lines [""; ""; ""])];
        Text (ln "")];
     Text (lines [""; ""; ""])].

Definition html_cell_26 : html :=
  Elem "div" [("class", "cell border-box-sizing text_cell rendered")]
    [Elem "div" [("class", "inner_cell")]
       [Text (ln "");
        Elem "div" [("class", "text_cell_render border-box-sizing rendered_html")]
          [Text (ln "");
           Elem "p" []
             [Text "And finally we save the encoder to be able to use it for classification in the next section."];
           Text (lines [""; ""; ""])];
        Text (ln "")];
     Text (ln "")].

Definition html_cell_27 : html :=
  Elem "div" [("class", "cell border-box-sizing code_cell rendered")]
    [Text (ln "");
     Elem "div" [("class", "input")]
       [Text (lines [""; ""; ""]);
        Elem "div" [("class", "inner_cell")]
          [Text (lines [""; "    "]);
           Elem "div" [("class", "input_area")]
             [Text (ln "");
              Elem "div" [("class", " highlight hl-ipython3")]
                [Elem "pre" []
                   [Elem "span" [] [];
                    Elem "span" [("class", "n")] [Text "learn"];
                    Elem "span" [("class", "o")] [Text "."];
                    Elem "span" [("class", "n")] [Text "save_encoder"];
                    Elem "span" [("class", "p")] [Text "("];
                    Elem "span" [("class", "s1")] [CharRef 39; Text "ft_enc"; CharRef 39];
                    Elem "span" [("class", "p")] [Text ")"];
                    Text (ln "")]];
              Text (lines [""; ""; ""])];
           Text (ln "")];
        Text (ln "")];
     Text (lines [""; ""; ""])].

Definition html_cell_28 : html :=
  Elem "div" [("class", "cell border-box-sizing text_cell rendered")]
    [Elem "div" [("class", "inner_cell")]
       [Text (ln "");
        Elem "div" [("class", "text_cell_render border-box-sizing rendered_html")]
          [Text (ln "");
           Elem "h3" [("id", "Building-a-classifier")]
             [Text "Building a classifier";
              Elem "a" [("class", "anchor-link"); ("href", "#Building-a-classifier")] [CharRef 182]];
           Text (ln "")];
        Text (ln "")];
     Text (ln "")].

Definition html_cell_29 : html :=
  Elem "div" [("class", "cell border-box-sizing text_cell rendered")]
    [Elem "div" [("class", "inner_cell")]
       [Text (ln "");
        Elem "div" [("class", "text_cell_render border-box-sizing rendered_html")]
          [Text (ln "");
           Elem "p" []
             [Text "We now use the ";
              Elem "code" [] [Text "data_clas"];
              Text " object we created earlier to build a classifier with our fine-tuned encoder. The learner object can be done in a single line."];
           Text (lines [""; ""; ""])];
        Text (ln "")];
     Text (ln "")].

Definition html_cell_30 : html :=
  Elem "div" [("class", "cell border-box-sizing code_cell rendered")]
    [Text (ln "");
     Elem "div" [("class", "input")]
       [Text (lines [""; ""; ""]);
        Elem "div" [("class", "inner_cell")]
          [Text (lines [""; "    "]);
           Elem "div" [("class", "input_area")]
             [Text (ln "");
              Elem "div" [("class", " highlight hl-ipython3")]
                [Elem "pre" []
                   [Elem "span" [] [];
                    Elem "span" [("class", "n")] [Text "learn"];
                    Text " ";
                    Elem "span" [("class", "o")] [Text "="];
                    Text " ";
                    Elem "span" [("class", "n")] [Text "RNNLearner"];
                    Elem "span" [("class", "o")] [Text "."];
                    Elem "span" [("class", "n")] [Text "classifier"];
                    Elem "span" [("class", "p")] [Text "("];
                    Elem "span" [("class", "n")] [Text "data_clas"];
                    Elem "span" [("class", "p")] [Text ","];
                    Text " ";
                    Elem "span" [("class", "n")] [Text "drop_mult"];
                    Elem "span" [("class", "o")] [Text "="];
                    Elem "span" [("class", "mf")] [Text "0.5"];
                    Elem "span" [("class", "p")] [Text ")"];
                    Text (ln "");
                    Elem "span" [("class", "n")] [Text "learn"];
                    Elem "span" [("class", "o")] [Text "."];
                    Elem "span" [("class", "n")] [Text "load_encoder"];
                    Elem "span" [("class", "p")] [Text "("];
                    Elem "span" [("class", "s1")] [CharRef 39; Text "ft_enc"; CharRef 39];
                    Elem "span" [("class", "p")] [Text ")"];
                    Text (ln "");
                    Elem "span" [("class", "n")] [Text "learn"];
                    Elem "span" [("class", "o")] [Text "."];
                    Elem "span" [("class", "n")] [Text "fit_one_cycle"];
                    Elem "span" [("class", "p")] [Text "("];
                    Elem "span" [("class", "mi")] [Text "1"];
                    Elem "span" [("class", "p")] [Text ","];
                    Text " ";
                    Elem "span" [("class", "mf")] [Text "1e-2"];
                    Elem "span" [("class", "p")] [Text ")"];
                    Text (ln "")]];
              Text (lines [""; ""; ""])];
           Text (ln "")];
        Text (ln "")];
     Text (lines [""; ""; ""]);
     Elem "div" [("class", "output_wrapper")]
       [Text (ln "");
        Elem "div" [("class", "output")]
          [Text (lines [""; ""; ""]);
           Elem "div" [("class", "output_area")]
             [Text (lines [""; ""; ""]);
              Elem "div" [("class", "output_subarea output_stream output_stdout output_text")]
                [Text (ln "");
                 Elem "pre" []
                   [Text (lines ["Total time: 00:24"; "epoch  train_loss  valid_loss  accuracy"; "1      0.612591    0.585682    0.715000  (00:24)"; ""; ""])];
                 Text (ln "")];
              Text (ln "")];
           Text (lines [""; ""; ""])];
        Text (ln "")];
     Text (lines [""; ""; ""])].

Definition html_cell_31 : html :=
  Elem "div" [("class", "cell border-box-sizing text_cell rendered")]
    [Elem "div" [("class", "inner_cell")]
       [Text (ln "");
        Elem "div" [("class", "text_cell_render border-box-sizing rendered_html")]
          [Text (ln "");
           Elem "p" [] [Text "Again, we can unfreeze the model and fine-tune it."];
           Text (lines [""; ""; ""])];
        Text (ln "")];
     Text (ln "")].

Definition html_cell_32 : html :=
  Elem "div" [("class", "cell border-box-sizing code_cell rendered")]
    [Text (ln "");
     Elem "div" [("class", "input")]
       [Text (lines [""; ""; ""]);
        Elem "div" [("class", "inner_cell")]
          [Text (lines [""; "    "]);
           Elem "div" [("class", "input_area")]
             [Text (ln "");
              Elem "div" [("class", " highlight hl-ipython3")]
                [Elem "pre" []
                   [Elem "span" [] [];
                    Elem "span" [("class", "n")] [Text "learn"];
                    Elem "span" [("class", "o")] [Text "."];
                    Elem "span" [("class", "n")] [Text "freeze_to"];
                    Elem "span" [("class", "p")] [Text "("];
                    Elem "span" [("class", "o")] [Text "-"];
                    Elem "span" [("class", "mi")] [Text "2"];
                    Elem "span" [("class", "p")] [Text ")"];
                    Text (ln "");
                    Elem "span" [("class", "n")] [Text "learn"];
                    Elem "span" [("class", "o")] [Text "."];
                    Elem "span" [("class", "n")] [Text "fit_one_cycle"];
                    Elem "span" [("class", "p")] [Text "("];
                    Elem "span" [("class", "mi")] [Text "1"];
                    Elem "span" [("class", "p")] [Text ","];
                    Text " ";
                    Elem "span" [("class", "nb")] [Text "slice"];
                    Elem "span" [("class", "p")] [Text "("];
                    Elem "span" [("class", "mf")] [Text "5e-3"];
                    Elem "span" [("class", "o")] [Text "/"];
                    Elem "span" [("class", "mf")] [Text "2."];
                    Elem "span" [("class", "p")] [Text ","];
                    Text " ";
                    Elem "span" [("class", "mf")] [Text "5e-3"];
                    Elem "span" [("class", "p")] [Text "))"];
                    Text (ln "")]];
              Text (lines [""; ""; ""])];
           Text (ln "")];
        Text (ln "")];
     Text (lines [""; ""; ""]);
     Elem "div" [("class", "output_wrapper")]
       [Text (ln "");
        Elem "div" [("class", "output")]
          [Text (lines [""; ""; ""]);
           Elem "div" [("class", "output_area")]
             [Text (lines [""; ""; ""]);
              Elem "div" [("class", "output_subarea output_stream output_stdout output_text")]
                [Text (ln "");
                 Elem "pre" []
                   [Text (lines ["Total time: 00:28"; "epoch  train_loss  valid_loss  accuracy"; "1      0.545209    0.526416    0.705000  (00:28)"; ""; ""])];
                 Text (ln "")];
              Text (ln "")];
           Text (lines [""; ""; ""])];
        Text (ln "")];
     Text (lines [""; ""; ""])].

Definition html_cell_33 : html :=
  Elem "div" [("class", "cell border-box-sizing code_cell rendered")]
    [Text (ln "");
     Elem "div" [("class", "input")]
       [Text (lines [""; ""; ""]);
        Elem "div" [("class", "inner_cell")]
          [Text (lines [""; "    "]);
           Elem "div" [("class", "input_area")]
             [Text (ln "");
              Elem "div" [("class", " highlight hl-ipython3")]
                [Elem "pre" []
                   [Elem "span" [] [];
                    Elem "span" [("class", "n")] [Text "learn"];
                    Elem "span" [("class", "o")] [Text "."];
                    Elem "span" [("class", "n")] [Text "unfreeze"];
                    Elem "span" [("class", "p")] [Text "()"];
                    Text (ln "");
                    Elem "span" [("class", "n")] [Text "learn"];
                    Elem "span" [("class", "o")] [Text "."];
                    Elem "span" [("class", "n")] [Text "fit_one_cycle"];
                    Elem "span" [("class", "p")] [Text "("];
                    Elem "span" [("class", "mi")] [Text "1"];
                    Elem "span" [("class", "p")] [Text ","];
                    Text " ";
                    Elem "span" [("class", "nb")] [Text "slice"];
                    Elem "span" [("class", "p")] [Text "("];
                    Elem "span" [("class", "mf")] [Text "2e-3"];
                    Elem "span" [("class", "o")] [Text "/"];
                    Elem "span" [("class", "mi")] [Text "100"];
                    Elem "span" [("class", "p")] [Text ","];
                    Text " ";
                    Elem "span" [("class", "mf")] [Text "2e-3"];
                    Elem "span" [("class", "p")] [Text "))"];
                    Text (ln "")]];
              Text (lines [""; ""; ""])];
           Text (ln "")];
        Text (ln "")];
     Text (lines [""; ""; ""]);
     Elem "div" [("class", "output_wrapper")]
       [Text (ln "");
        Elem "div" [("class", "output")]
          [Text (lines [""; ""; ""]);
           Elem "div" [("class", "output_area")]
             [Text (lines [""; ""; ""]);
              Elem "div" [("class", "output_subarea output_stream output_stdout output_text")]
                [Text (ln "");
                 Elem "pre" []
                   [Text (lines ["Total time: 00:54"; "epoch  train_loss  valid_loss  accuracy"; "1      0.448358    0.569745    0.740000  (00:54)"; ""; ""])];
                 Text (ln "")];
              Text (ln "")];
           Text (lines [""; ""; ""])];
        Text (ln "")];
     Text (lines [""; ""; ""])].

Definition text_html : html :=
  Elem "div" [("class", "container"); ("id", "notebook-container")]
    [Text (lines [""; "    "; ""]);
     html_cell_0;
     Text (ln "");
     html_cell_1;
     Text (ln "");
     html_cell_2;
     Text (ln "");
     html_cell_3;
     Text (ln "");
     html_cell_4;
     Text (ln "");
     html_cell_5;
     Text (ln "");
     html_cell_6;
     Text (ln "");
     html_cell_7;
     Text (ln "");
     html_cell_8;
     Text (ln "");
     html_cell_9;
     Text (ln "");
     html_cell_10;
     Text (ln "");
     html_cell_11;
     Text (ln "");
     html_cell_12;
     Text (ln "");
     html_cell_13;
     Text (ln "");
     html_cell_14;
     Text (ln "");
     html_cell_15;
     Text (ln "");
     html_cell_16;
     Text (ln "");
     html_cell_17;
     Text (ln "");
     html_cell_18;
     Text (ln "");
     html_cell_19;
     Text (ln "");
     html_cell_20;
     Text (ln "");
     html_cell_21;
     Text (ln "");
     html_cell_22;
     Text (ln "");
     html_cell_23;
     Text (ln "");
     html_cell_24;
     Text (ln "");
     html_cell_25;
     Text (ln "");
     html_cell_26;
     Text (ln "");
     html_cell_27;
     Text (ln "");
     html_cell_28;
     Text (ln "");
     html_cell_29;
     Text (ln "");
     html_cell_30;
     Text (ln "");
     html_cell_31;
     Text (ln "");
     html_cell_32;
     Text (ln "");
     html_cell_33;
     Text (ln "")].

(** ** Reading the page *)

(** The value of attribute [k] of an element, empty when absent. *)
Definition attr (k : string) (h : html) : string :=
  match h with
  | Elem _ attrs _ => default "" (snd <$> head (filter (λ kv, bool_decide (kv.1 = k)) attrs))
  | _ => ""
  end.

Definition has_class (c : string) (h : html) : bool :=
  bool_decide (c ∈ String.words (attr "class" h)).

Definition has_tag (t : string) (h : html) : bool :=
  match h with Elem t' _ _ => bool_decide (t' = t) | _ => false end.

Definition children (h : html) : list html :=
  match h with Elem _ _ kids => kids | _ => [] end.

(** A numeric character reference as the bytes of its UTF-8 encoding
    (the page has [&#39;] and [&#182;]). *)
Definition char_ref (n : N) : string :=
  if (n <? 128)%N then String (ascii_of_N n) ""
  else String (ascii_of_N (192 + n / 64)) (String (ascii_of_N (128 + n mod 64)) "").

(** The text of a subtree, leaving out the elements [skip] selects. *)
Fixpoint text_of (skip : html → bool) (h : html) : string :=
  if skip h then "" else
  match h with
  | Text s => s
  | CharRef n => char_ref n
  | Elem _ _ kids =>
      (fix go (l : list html) : string :=
         match l with [] => "" | k :: l => text_of skip k +:+ go l end) kids
  end.

(** The outermost elements of a subtree that [p] selects, in document
    order. *)
Fixpoint select (p : html → bool) (h : html) : list html :=
  if p h then [h] else
  match h with
  | Elem _ _ kids =>
      (fix go (l : list html) : list html :=
         match l with [] => [] | k :: l => select p k ++ go l end) kids
  | _ => []
  end.

(** The page written back as markup. An attribute with an empty value
    is written bare (the page has [<style scoped>]). *)
Definition attr_markup (kv : string * string) : string :=
  if bool_decide (kv.2 = "") then " " +:+ kv.1
  else " " +:+ kv.1 +:+ "=" +:+ dq +:+ kv.2 +:+ dq.

Fixpoint markup (h : html) : string :=
  match h with
  | Text s => s
  | CharRef n => "&#" +:+ pretty n +:+ ";"
  | Elem t attrs kids =>
      "<" +:+ t +:+ String.concat "" (attr_markup <$> attrs) +:+ ">" +:+
      (fix go (l : list html) : string :=
         match l with [] => "" | k :: l => markup k +:+ go l end) kids +:+
      "</" +:+ t +:+ ">"
  end.

(** The cells of the page: the elements of class [cell] under the
    notebook container. *)
Definition html_cells (page : html) : list html :=
  filter (λ h, has_class "cell" h) (children page).

Inductive cell_kind : Type := text_cell | code_cell.

Definition html_kind (h : html) : option cell_kind :=
  if has_class "text_cell" h then Some text_cell
  else if has_class "code_cell" h then Some code_cell
  else None.

(** What a text cell of the page shows: the text under its
    [text_cell_render] element, without the anchor links that follow
    headings. *)
Definition html_text (h : html) : string :=
  String.concat "" (text_of (has_class "anchor-link") <$> select (has_class "text_cell_render") h).

(** The source a code cell of the page shows: the text of the [pre]
    under its [input_area], if it has one. *)
Definition html_source (h : html) : option string :=
  text_of (λ _, false) <$>
    head (select (has_class "input_area") h ≫= select (has_tag "pre")).

(** What is displayed for an output: preformatted text, or markup. *)
Inductive display : Type :=
| Pre (s : string)
| Markup (s : string).

(** The outputs a code cell of the page shows, one per [output_area]. *)
Definition html_display (area : html) : option display :=
  match select (has_class "output_html") area with
  | box :: _ => Some (Markup (String.concat "" (markup <$> children box)))
  | [] => (λ p, Pre (text_of (λ _, false) p)) <$> head (select (has_tag "pre") area)
  end.

Definition html_outputs (h : html) : list (option display) :=
  html_display <$> select (has_class "output_area") h.

(** ** Reading the notebook *)

(** What the notebook displays for an output: stream text as it is, a
    result as markup when it has a [text/html] form and as its
    [text/plain] form otherwise. *)
Definition mime (k : string) (data : list (string * list string)) : option string :=
  (λ kv, String.concat "" kv.2) <$> head (filter (λ kv, bool_decide (kv.1 = k)) data).

Definition nb_display (o : output) : option display :=
  match o with
  | stream _ text => Some (Pre (String.concat "" text))
  | execute_result data =>
      match mime "text/html" data with
      | Some s => Some (Markup s)
      | None => Pre <$> mime "text/plain" data
      end
  end.

(** The text a markdown source renders to: the markers of headings and
    list items dropped at the start of a line, and inline, the marks of
    code spans, emphasis and links, link targets and HTML tags dropped. *)
Fixpoint drop_hashes (s : string) : string :=
  match s with
  | String "#" s' => drop_hashes s'
  | _ => s
  end.

Definition md_block (l : string) : string :=
  match l with
  | String "#" _ => drop_hashes l
  | String "-" (String " " r) => r
  | String d (String "." (String " " r)) => match Ascii.is_nat d with Some _ => r | None => l end
  | _ => l
  end.

Inductive md_state : Type := md_plain | md_target | md_tag.

Fixpoint md_inline (st : md_state) (s : string) : string :=
  match st, s with
  | _, "" => ""
  | md_plain, String "]" (String "(" r) => md_inline md_target r
  | md_plain, String c r =>
      if bool_decide (c ∈ ["`"; "*"; "["]%char) then md_inline md_plain r
      else if bool_decide (c = "<"%char) then md_inline md_tag r
      else String c (md_inline md_plain r)
  | md_target, String c r => md_inline (if bool_decide (c = ")"%char) then md_plain else md_target) r
  | md_tag, String c r => md_inline (if bool_decide (c = ">"%char) then md_plain else md_tag) r
  end.

Definition md_text (source : list string) : string :=
  String.concat "" ((λ l, md_inline md_plain (md_block l)) <$> source).

(** ** The code of the cells *)

(** Python expressions and statements, as far as the cells use them,
    with the constructor names of Python's [ast] module.  A float
    literal keeps its spelling. *)
#[warnings="-register-all"]
Inductive expr : Type :=
| Name (id : string)
| Str (s : string)
| Int (n : N)
| Float (lit : string)
| NoneC
| Attribute (value : expr) (attr : string)
| Call (func : expr) (args : list expr) (keywords : list (string * expr))
| Div (left right : expr)
| USub (operand : expr)
| Subscript (value : expr) (index : expr)
| Tuple (elts : list expr)
| List (elts : list expr).

#[warnings="-register-all"]
Inductive stmt : Type :=
| ImportFrom (module : string)
| Assign (target : string) (value : expr)
| Expr (value : expr)
| For (target : string) (iter : expr) (body : list stmt)
| If (test : expr) (body : list stmt)
| FunctionDef (name : string) (params : list string) (body : list stmt)
| ClassDef (name : string) (body : list stmt).

Definition commas (l : list string) : string := String.concat ", " l.

Fixpoint unparse_expr (e : expr) : string :=
  match e with
  | Name id => id
  | Str s => "'" +:+ s +:+ "'"
  | Int n => pretty n
  | Float lit => lit
  | NoneC => "None"
  | Attribute v a => unparse_expr v +:+ "." +:+ a
  | Call f args kws =>
      unparse_expr f +:+ "(" +:+
      commas ((unparse_expr <$> args) ++
              ((λ kw, kw.1 +:+ "=" +:+ unparse_expr kw.2) <$> kws)) +:+ ")"
  | Div l r => unparse_expr l +:+ "/" +:+ unparse_expr r
  | USub e => "-" +:+ unparse_expr e
  | Subscript v i => unparse_expr v +:+ "[" +:+ unparse_expr i +:+ "]"
  | Tuple es => commas (unparse_expr <$> es)
  | List es => "[" +:+ commas (unparse_expr <$> es) +:+ "]"
  end.

Definition is_simple (s : stmt) : bool :=
  match s with ImportFrom _ | Assign _ _ | Expr _ => true | _ => false end.

(** A statement as text at indentation [ind]. The body of a compound
    statement follows the colon on the same line when it is one simple
    statement, and is an indented block otherwise. *)
Fixpoint unparse_stmt (ind : string) (s : stmt) : string :=
  let block (body : list stmt) : string :=
    match body with
    | [b] => if is_simple b then " " +:+ unparse_stmt "" b
             else LF +:+ unparse_stmt ("    " +:+ ind) b
    | _ => (fix go (l : list stmt) : string :=
              match l with
              | [] => ""
              | b :: l => LF +:+ unparse_stmt ("    " +:+ ind) b +:+ go l
              end) body
    end in
  ind +:+
  match s with
  | ImportFrom m => "from " +:+ m +:+ " import *"
  | Assign x e => x +:+ " = " +:+ unparse_expr e
  | Expr e => unparse_expr e
  | For x it body => "for " +:+ x +:+ " in " +:+ unparse_expr it +:+ ":" +:+ block body
  | If c body => "if " +:+ unparse_expr c +:+ ":" +:+ block body
  | FunctionDef f ps body => "def " +:+ f +:+ "(" +:+ commas ps +:+ "):" +:+ block body
  | ClassDef c body => "class " +:+ c +:+ ":" +:+ block body
  end.

Definition unparse (body : list stmt) : string :=
  String.concat LF (unparse_stmt "" <$> body).

(** The text of a cell's source that is code: comment lines dropped, and
    blanks at the end of a line dropped. *)
Fixpoint rstrip (s : string) : string :=
  match s with
  | "" => ""
  | String c r =>
      match rstrip r with
      | "" => if Ascii.is_space c then "" else String c ""
      | r' => String c r'
      end
  end.

Definition is_comment (l : string) : bool :=
  match l with String "#" _ => true | _ => false end.

Definition code_text (source : list string) : string :=
  String.concat LF (rstrip <$> filter (λ l, negb (is_comment l)) source).

(** The cells' code, cell by cell. *)
Definition code_1 : list stmt :=
  [ImportFrom "fastai.gen_doc.nbdoc"].

Definition code_7 : list stmt :=
  [ImportFrom "fastai"; ImportFrom "fastai.text"].

Definition code_9 : list stmt :=
  [Assign "path" (Call (Name "untar_data") [Attribute (Name "URLs") "IMDB_SAMPLE"] []);
   Expr (Name "path")].

Definition code_11 : list stmt :=
  [Assign "df" (Call (Attribute (Name "pd") "read_csv")
                     [Div (Name "path") (Str "train.csv")] [("header", NoneC)]);
   Expr (Call (Attribute (Name "df") "head") [] [])].

Definition code_13 : list stmt :=
  [Assign "classes" (Call (Name "read_classes") [Div (Name "path") (Str "classes.txt")] []);
   Expr (Tuple [Subscript (Name "classes") (Int 0); Subscript (Name "classes") (Int 1)])].

Definition tmp_file : expr := Div (Div (Name "path") (Str "tmp")) (Name "file").

Definition code_16 : list stmt :=
  [For "file" (List [Str "train_tok.npy"; Str "valid_tok.npy"])
     [If (Call (Attribute (Attribute (Name "os") "path") "exists") [tmp_file] [])
         [Expr (Call (Attribute (Name "os") "remove") [tmp_file] [])]]].

Definition code_17 : list stmt :=
  [Assign "train_ds" (Call (Attribute (Name "TextDataset") "from_df")
                           [Name "path"; Name "df"] [("classes", Name "classes")])].

Definition code_19 : list stmt :=
  [Assign "data_lm" (Call (Attribute (Name "TextLMDataBunch") "from_csv") [Name "path"] []);
   Assign "data_clas"
     (Call (Attribute (Name "TextClasDataBunch") "from_csv") [Name "path"]
           [("vocab", Attribute (Attribute (Name "data_lm") "train_ds") "vocab");
            ("bs", Int 32)])].

Definition fit_call (cyc : N) (max_lr : expr) : stmt :=
  Expr (Call (Attribute (Name "learn") "fit_one_cycle") [Int cyc; max_lr] []).

Definition code_23 : list stmt :=
  [Assign "learn" (Call (Attribute (Name "RNNLearner") "language_model") [Name "data_lm"]
                        [("pretrained_model", Attribute (Name "URLs") "WT103");
                         ("drop_mult", Float "0.5")]);
   fit_call 1 (Float "1e-2")].

Definition code_25 : list stmt :=
  [Expr (Call (Attribute (Name "learn") "unfreeze") [] []);
   fit_call 1 (Float "1e-3")].

Definition code_27 : list stmt :=
  [Expr (Call (Attribute (Name "learn") "save_encoder") [Str "ft_enc"] [])].

Definition code_30 : list stmt :=
  [Assign "learn" (Call (Attribute (Name "RNNLearner") "classifier") [Name "data_clas"]
                        [("drop_mult", Float "0.5")]);
   Expr (Call (Attribute (Name "learn") "load_encoder") [Str "ft_enc"] []);
   fit_call 1 (Float "1e-2")].

Definition max_lr_32 : expr :=
  Call (Name "slice") [Div (Float "5e-3") (Float "2."); Float "5e-3"] [].

Definition code_32 : list stmt :=
  [Expr (Call (Attribute (Name "learn") "freeze_to") [USub (Int 2)] []);
   fit_call 1 max_lr_32].

Definition max_lr_33 : expr :=
  Call (Name "slice") [Div (Float "2e-3") (Int 100); Float "2e-3"] [].

Definition code_33 : list stmt :=
  [Expr (Call (Attribute (Name "learn") "unfreeze") [] []);
   fit_call 1 max_lr_33].

(** The notebook's code, one entry per cell: empty for a markdown cell. *)
Definition text_code : list (list stmt) :=
  [ []; code_1; []; []; []; []; []; code_7; []; code_9; []; code_11; []; code_13;
    []; []; code_16; code_17; []; code_19; []; []; []; code_23; []; code_25; [];
    code_27; []; []; code_30; []; code_32; code_33 ].

Definition cell_outputs (c : cell) : list output :=
  match c with markdown _ => [] | code _ _ o => o end.

(** [body] is the code of cell [c]. *)
Definition code_of (c : cell) (body : list stmt) : Prop :=
  match c with
  | markdown _ => body = []
  | code _ source _ => unparse body = code_text source
  end.

(** ** Reading the code *)

(** The statements of the notebook in the order of its cells, and those
    of the cells whose input the page shows. *)
Definition statements : list stmt := mjoin text_code.

Definition shown (c : cell) : bool :=
  match c with code false _ _ => true | _ => false end.

Definition shown_statements : list stmt :=
  mjoin ((λ cb : cell * list stmt, if shown cb.1 then cb.2 else []) <$> zip text_ipynb text_code).

(** A statement defines a function or a class, itself or in its body. *)
Fixpoint defines (s : stmt) : bool :=
  match s with
  | FunctionDef _ _ _ | ClassDef _ _ => true
  | For _ _ body | If _ body => existsb defines body
  | _ => false
  end.

(** The dotted name of an expression made of a name and attributes, as
    [os.path.exists] is. *)
Fixpoint dotted (e : expr) : option (list string) :=
  match e with
  | Name id => Some [id]
  | Attribute v a => (λ l, l ++ [a]) <$> dotted v
  | _ => None
  end.

(** The calls of an expression, by the dotted name of what is called,
    in the order of evaluation. *)
Fixpoint calls_expr (e : expr) : list (list string) :=
  match e with
  | Name _ | Str _ | Int _ | Float _ | NoneC => []
  | Attribute v _ => calls_expr v
  | Call f args kws =>
      calls_expr f ++ mjoin (calls_expr <$> args) ++
      mjoin ((λ kw, calls_expr kw.2) <$> kws) ++ [default [] (dotted f)]
  | Div l r => calls_expr l ++ calls_expr r
  | USub e => calls_expr e
  | Subscript v i => calls_expr v ++ calls_expr i
  | Tuple es | List es => mjoin (calls_expr <$> es)
  end.

Fixpoint calls_stmt (s : stmt) : list (list string) :=
  match s with
  | ImportFrom _ => []
  | Assign _ e | Expr e => calls_expr e
  | For _ it body => calls_expr it ++ mjoin (calls_stmt <$> body)
  | If c body => calls_expr c ++ mjoin (calls_stmt <$> body)
  | FunctionDef _ _ body | ClassDef _ body => mjoin (calls_stmt <$> body)
  end.

Definition calls (body : list stmt) : list (list string) := mjoin (calls_stmt <$> body).

(** The names an expression uses as values: the names it reads, but for
    those it only takes an attribute of, as [learn] in
    [learn.fit_one_cycle(...)]. *)
Fixpoint passed_expr (e : expr) : list string :=
  match e with
  | Name id => [id]
  | Str _ | Int _ | Float _ | NoneC => []
  | Attribute (Name _) _ => []
  | Attribute v _ => passed_expr v
  | Call f args kws =>
      passed_expr f ++ mjoin (passed_expr <$> args) ++ mjoin ((λ kw, passed_expr kw.2) <$> kws)
  | Div l r => passed_expr l ++ passed_expr r
  | USub e => passed_expr e
  | Subscript v i => passed_expr v ++ passed_expr i
  | Tuple es | List es => mjoin (passed_expr <$> es)
  end.

Fixpoint passed (s : stmt) : list string :=
  match s with
  | ImportFrom _ => []
  | Assign _ e | Expr e => passed_expr e
  | For _ it body => passed_expr it ++ mjoin (passed <$> body)
  | If c body => passed_expr c ++ mjoin (passed <$> body)
  | FunctionDef _ _ body | ClassDef _ body => mjoin (passed <$> body)
  end.

(** The names a statement binds, itself or in its body. *)
Fixpoint binds (s : stmt) : list string :=
  match s with
  | ImportFrom _ | Expr _ => []
  | Assign x _ => [x]
  | For x _ body => x :: mjoin (binds <$> body)
  | If _ body => mjoin (binds <$> body)
  | FunctionDef f _ _ => [f]
  | ClassDef c _ => [c]
  end.

(** *** Libraries *)

Inductive library : Type := fastai | pandas | os.

Global Instance library_eq_dec : EqDecision library.
Proof. solve_decision. Defined.

(** The names the star imports of the notebook bring into the session,
    by the library they belong to. *)
Definition imported (id : string) : option library :=
  if bool_decide (id ∈ ["untar_data"; "URLs"; "read_classes"; "TextDataset";
                        "TextLMDataBunch"; "TextClasDataBunch"; "RNNLearner"])
  then Some fastai
  else if bool_decide (id = "pd") then Some pandas
  else if bool_decide (id = "os") then Some os
  else None.

(** The library a call goes into: that of the imported name it starts
    from, or that of the call whose result the name it starts from was
    bound to. *)
Definition library_of (env : gmap string library) (callee : list string) : option library :=
  match callee with
  | id :: _ => match env !! id with Some l => Some l | None => imported id end
  | [] => None
  end.

Definition call_library (env : gmap string library) (e : expr) : option library :=
  match e with
  | Call f _ _ => dotted f ≫= library_of env
  | _ => None
  end.

(** What a statement is. *)
Inductive stmt_kind : Type :=
| an_import
| a_call (l : library)
| a_display
| a_compound
| a_definition
| another.

Global Instance stmt_kind_eq_dec : EqDecision stmt_kind.
Proof. solve_decision. Defined.

(** An expression that shows bound values: names, subscripts by
    literals and tuples of these. *)
Fixpoint displays (e : expr) : bool :=
  match e with
  | Name _ => true
  | Subscript v (Int _) => displays v
  | Tuple es => forallb displays es
  | _ => false
  end.

Definition kind_of (env : gmap string library) (s : stmt) : stmt_kind :=
  match s with
  | ImportFrom _ => an_import
  | Assign _ e | Expr e =>
      match call_library env e with
      | Some l => a_call l
      | None => if displays e then a_display else another
      end
  | For _ _ _ | If _ _ => a_compound
  | FunctionDef _ _ _ | ClassDef _ _ => a_definition
  end.

(** A name bound to the result of a call belongs to the library of the
    call. *)
Definition bind_library (env : gmap string library) (s : stmt) : gmap string library :=
  match s with
  | Assign x e =>
      match call_library env e with
      | Some l => <[x := l]> env
      | None => delete x env
      end
  | _ => env
  end.

Fixpoint kinds_from (env : gmap string library) (body : list stmt) : list stmt_kind :=
  match body with
  | [] => []
  | s :: body => kind_of env s :: kinds_from (bind_library env s) body
  end.

(** The statements of the notebook, each with what it is. *)
Definition classified : list (stmt * stmt_kind) :=
  zip statements (kinds_from ∅ statements).

Definition import_or_call (k : stmt_kind) : bool :=
  match k with an_import | a_call _ => true | _ => false end.

(** *** The groups of calls the specification names *)

Inductive group : Type :=
| download_helper
| csv_loading
| class_list_loading
| factory_method
| learner_method.

Global Instance group_eq_dec : EqDecision group.
Proof. solve_decision. Defined.

(** Spec: dataset download helper, CSV loading, class-list loading,
    dataset/data-bunch factory methods, and a learner object's
    fit/freeze/unfreeze/encoder-persistence methods. *)
Definition group_of (callee : list string) : option group :=
  match callee with
  | ["untar_data"] => Some download_helper
  | ["pd"; "read_csv"] => Some csv_loading
  | ["read_classes"] => Some class_list_loading
  | [c; m] =>
      if bool_decide (c ∈ ["TextDataset"; "TextLMDataBunch"; "TextClasDataBunch"])
         && bool_decide (m ∈ ["from_df"; "from_csv"])
      then Some factory_method
      else if bool_decide (c = "learn")
              && bool_decide (m ∈ ["fit_one_cycle"; "freeze_to"; "unfreeze";
                                   "save_encoder"; "load_encoder"])
      then Some learner_method
      else None
  | _ => None
  end.

Definition outside_groups (body : list stmt) : list (list string) :=
  filter (λ c, bool_decide (group_of c = None)) (calls body).

(** *** What is done to the learner *)

(** A statement that binds [learn] to a learner made by a factory of
    [RNNLearner], or calls a method of [learn]. *)
Inductive learn_event : Type :=
| makes (factory : string)
| method (name : string) (args : list expr).

Definition learn_event_of (s : stmt) : option learn_event :=
  match s with
  | Assign "learn" (Call (Attribute (Name "RNNLearner") f) _ _) => Some (makes f)
  | Expr (Call (Attribute (Name "learn") m) args _) => Some (method m args)
  | _ => None
  end.

Definition learn_events (body : list stmt) : list learn_event :=
  omap learn_event_of body.

(** *** Outputs *)

(** A cell trains when it calls [fit_one_cycle]. *)
Definition trains (body : list stmt) : bool :=
  bool_decide (["learn"; "fit_one_cycle"] ∈ calls body).

(** The lines of a text. *)
Fixpoint split_lines_go (cur : string) (s : string) : list string :=
  match s with
  | "" => [String.rev cur]
  | String c r =>
      if bool_decide (c = ascii_of_nat 10) then String.rev cur :: split_lines_go "" r
      else split_lines_go (String c cur) r
  end.
Definition split_lines (s : string) : list string := split_lines_go "" s.

(** The log of a fit: the total time, the header of the table, a row
    per epoch and an empty line. *)
Definition training_log_rows (text : string) : option nat :=
  match split_lines text with
  | time :: header :: rows =>
      if String.prefix "Total time: " time
         && bool_decide (header = "epoch  train_loss  valid_loss  accuracy")
         && bool_decide (drop (length rows - 2) rows = [""; ""])
      then Some (length rows - 2) else None
  | _ => None
  end.

Definition is_training_log (o : output) : bool :=
  match o with
  | stream _ text => bool_decide (is_Some (training_log_rows (String.concat "" text)))
  | _ => false
  end.

(** *** The table of a frame *)

Fixpoint digits_only (s : string) : bool :=
  match s with
  | "" => true
  | String c r => bool_decide (is_Some (Ascii.is_nat c)) && digits_only r
  end.

Definition is_integer (s : string) : bool :=
  negb (bool_decide (s = "")) && digits_only s.

(** The rows of the body of a table of the page: for each row, its row
    label and the texts of its data cells. *)
Definition cells_of_row (tag : string) (tr : html) : list string :=
  text_of (λ _, false) <$> filter (λ h, has_tag tag h) (children tr).

Definition table_columns (h : html) : list string :=
  (select (has_tag "thead") h ≫= select (has_tag "tr")) ≫= cells_of_row "th".

Definition table_rows (h : html) : list (list string) :=
  cells_of_row "td" <$> (select (has_tag "tbody") h ≫= select (has_tag "tr")).

(** How Python writes a tuple of strings. *)
Definition repr_tuple (l : list string) : string :=
  "(" +:+ commas ((λ s, "'" +:+ s +:+ "'") <$> l) +:+ ")".

(** The cells of the notebook, each with its code. *)
Definition notebook : list (cell * list stmt) := zip text_ipynb text_code.

Definition has_output (c : cell) : bool :=
  match cell_outputs c with [] => false | _ => true end.

(** ** The session the notebook demonstrates *)

(** The cells run in order in one Python session: a namespace of global
    names, the files on disk, the objects the names refer to.  The code
    of the cells is in the notebook; the functions it calls belong to
    the fastai library, whose code is not part of the two documents.
    They are modelled here from what the documents say about them.

    The session is the one the notebook shows: the star imports of
    cells 1 and 7 have run, and the names they bring ([pd], [os], the
    names of the library) are not in the namespace of the model, which
    holds the names the notebook's own statements bind.  A call of the
    library is a call of its model.  The dataset is where [untar_data]
    has put it; the files of the model are those of the cache under
    [tmp]. *)
Module Session.

(** References to objects of the session's heap. *)
Definition ref : Type := nat.

(** Modelled from the spec: the state in which a learner's layer groups
    are, which the library keeps: frozen but for the last one, as a
    learner is before the notebook unfreezes it; frozen up to a layer
    group; or unfrozen. *)
Inductive freeze_state : Type :=
| frozen
| frozen_to (n : Z)
| unfrozen.

Inductive task : Type := language_model | classifier.

(** One call of [fit_one_cycle]: on which data, in which freeze state,
    for how many cycles, at which learning rate (as written). *)
Record fit_step : Type := FitStep {
  step_data : ref;
  step_frozen : freeze_state;
  step_cyc : N;
  step_max_lr : expr }.

(** Modelled from the spec: a model of the library, known here by how
    it was obtained (made for a task, given pretrained weights, given
    the encoder of a saved model, fitted); its numbers are the
    library's. *)
Inductive model : Type :=
| created (t : task) (drop_mult : string)
| with_pretrained (m : model) (url : string)
| with_encoder_of (m : model) (saved : model)
| fitted (m : model) (step : fit_step).

Record learner : Type := Learner {
  l_data : ref;
  l_model : model;
  l_frozen : freeze_state }.

(** Modelled from the spec: the objects of the library the session
    holds: a vocabulary (the dictionary persisted in a file), a dataset
    of a split with its vocabulary, a data bunch of a training and a
    validation dataset, a learner. *)
Inductive obj : Type :=
| OVocab (file : string)
| ODataset (name : string) (vocab : ref)
| OBunch (t : task) (train_ds valid_ds : ref) (bs : N)
| OLearner (l : learner).

(** Values of names and expressions: a path, a string, the frame read
    from a CSV file and its first rows, the classes read from a file
    and one of them, a tuple, a reference to an object. *)
Inductive value : Type :=
| VPath (p : string)
| VStr (s : string)
| VFrame (csv : string)
| VRows (csv : string) (n : N)
| VClasses (file : string)
| VItem (file : string) (i : N)
| VTuple (elts : list value)
| VRef (r : ref).

(** What a cell writes to its output: a line of text, or the log of a
    fit with one row per epoch. *)
Inductive printed : Type :=
| Said (s : string)
| TrainingLog (epochs : N).

(** What the library did about the preprocessed form of a split. *)
Inductive event : Type :=
| Preprocessed (name : string)
| Loaded (name : string).

(** An entry of the disk that [os.remove] does not delete: a directory,
    or an entry of a directory in which the session may not write. *)
Inductive entry : Type :=
| directory
| protected.

(** The world of the session: the namespace of its global names, the
    paths of the files on disk, the other entries of the disk, the
    encoders saved by name, the heap of objects, what the running cell
    has printed, and what the library has done about preprocessing. *)
Record world : Type := World {
  globals : gmap string value;
  files : gset string;
  others : gmap string entry;
  models : gmap string model;
  heap : list obj;
  stdout : list printed;
  log : list event }.

(** The world in which a session starts: the files [on_disk] and
    nothing in their way. *)
Definition fresh (on_disk : gset string) : world :=
  World ∅ on_disk ∅ ∅ [] [] [].

Inductive exn : Type :=
| NameError (name : string)
| TypeError
| AttributeError (name : string)
| FileNotFoundError (p : string)
| IsADirectoryError (p : string)
| PermissionError (p : string).

Inductive result (A : Type) : Type :=
| Ok (a : A) (w : world)
| Raise (e : exn).
Arguments Ok {A} a w.
Arguments Raise {A} e.

(** Computations of the session: they read and change the world, and
    return or raise. *)
Definition py (A : Type) : Type := world → result A.

Definition ret {A} (a : A) : py A := λ w, Ok a w.
Definition bind {A B} (m : py A) (k : A → py B) : py B :=
  λ w, match m w with Ok a w' => k a w' | Raise e => Raise e end.
Definition raise {A} (e : exn) : py A := λ _, Raise e.

Declare Scope py_scope.
Notation "x ← m ; k" := (bind m (λ x, k))
  (at level 20, m at level 100, k at level 200, right associativity,
   format "x  ←  m ; '/' k") : py_scope.
Notation "m ;; k" := (bind m (λ _, k))
  (at level 100, k at level 200, right associativity) : py_scope.
Delimit Scope py_scope with py.
Bind Scope py_scope with py.
Local Open Scope py_scope.

(** *** The namespace and the heap *)

Definition get (x : string) : py value := λ w,
  match globals w !! x with
  | Some v => Ok v w
  | None => Raise (NameError x)
  end.

Definition set (x : string) (v : value) : py unit := λ w,
  Ok tt (World (<[x := v]> (globals w)) (files w) (others w) (models w) (heap w)
               (stdout w) (log w)).

Definition alloc (o : obj) : py ref := λ w,
  Ok (length (heap w))
     (World (globals w) (files w) (others w) (models w) (heap w ++ [o]) (stdout w) (log w)).

Definition deref (r : ref) : py obj := λ w,
  match heap w !! r with
  | Some o => Ok o w
  | None => Raise TypeError
  end.

Definition store (r : ref) (o : obj) : py unit := λ w,
  Ok tt (World (globals w) (files w) (others w) (models w) (<[r := o]> (heap w))
               (stdout w) (log w)).

Definition print (p : printed) : py unit := λ w,
  Ok tt (World (globals w) (files w) (others w) (models w) (heap w) (stdout w ++ [p])
               (log w)).

Definition note (e : event) : py unit := λ w,
  Ok tt (World (globals w) (files w) (others w) (models w) (heap w) (stdout w)
               (log w ++ [e])).

Definition as_path (v : value) : py string :=
  match v with VPath p => ret p | _ => raise TypeError end.
Definition as_ref (v : value) : py ref :=
  match v with VRef r => ret r | _ => raise TypeError end.

Definition get_learner (r : ref) : py learner :=
  o ← deref r; match o with OLearner l => ret l | _ => raise TypeError end.

(** Attribute access [d.train_ds] on a data bunch and [d.vocab] on a
    dataset. *)
Definition attr_train_ds (r : ref) : py ref :=
  o ← deref r; match o with OBunch _ t _ _ => ret t | _ => raise TypeError end.
Definition attr_vocab (r : ref) : py ref :=
  o ← deref r; match o with ODataset _ v => ret v | _ => raise TypeError end.

(** *** Paths and files: [pathlib] and [os] *)

(** The text of a path between its slashes. *)
Fixpoint split_slash_go (cur : string) (s : string) : list string :=
  match s with
  | "" => [String.rev cur]
  | String c r =>
      if bool_decide (c = "/"%char) then String.rev cur :: split_slash_go "" r
      else split_slash_go (String c cur) r
  end.

(** A path as [pathlib] reads it on a POSIX system: its root (one
    slash, or two when the text starts with exactly two) and its parts,
    which are the texts between slashes but for the empty ones and the
    dots. *)
Definition path_root (s : string) : string :=
  match s with
  | String "/" (String "/" (String "/" _)) => "/"
  | String "/" (String "/" _) => "//"
  | String "/" _ => "/"
  | _ => ""
  end.

Definition path_parts (s : string) : list string :=
  filter (λ x, negb (bool_decide (x = "")) && negb (bool_decide (x = ".")))
         (split_slash_go "" s).

Definition path_str (root : string) (parts : list string) : string :=
  match root, parts with
  | "", [] => "."
  | _, _ => root +:+ String.concat "/" parts
  end.

(** [p / s] on paths: [s] itself when it has a root, and otherwise the
    parts of [p] followed by those of [s]. *)
Definition join (p s : string) : string :=
  if bool_decide (path_root s = "")
  then path_str (path_root p) (path_parts p ++ path_parts s)
  else path_str (path_root s) (path_parts s).

(** The operator [/], which paths define with a string or a path on
    either side. *)
Definition truediv (a b : value) : py value :=
  match a, b with
  | VPath p, VStr s | VPath p, VPath s | VStr p, VPath s => ret (VPath (join p s))
  | _, _ => raise TypeError
  end.

(** What [os] takes for a path: a string or a path. *)
Definition fspath (v : value) : py string :=
  match v with
  | VPath p | VStr p => ret p
  | _ => raise TypeError
  end.

(** There is something at [p]: a file, or another entry. *)
Definition exists_at (p : string) (w : world) : bool :=
  bool_decide (p ∈ files w) || bool_decide (is_Some (others w !! p)).

(** [os.path.exists] tells whether there is something at the path. *)
Definition os_path_exists (v : value) : py bool :=
  p ← fspath v; λ w, Ok (exists_at p w) w.

(** The error of [os.remove] on an entry it does not delete. *)
Definition cannot_remove (k : entry) (p : string) : exn :=
  match k with
  | directory => IsADirectoryError p
  | protected => PermissionError p
  end.

(** [os.remove] deletes the file at the path; it raises when there is
    none, and when what is there is a directory or may not be
    deleted. *)
Definition os_remove (v : value) : py unit :=
  p ← fspath v;
  λ w, match others w !! p with
       | Some k => Raise (cannot_remove k p)
       | None =>
           if bool_decide (p ∈ files w)
           then Ok tt (World (globals w) (files w ∖ {[p]}) (others w) (models w) (heap w)
                             (stdout w) (log w))
           else Raise (FileNotFoundError p)
       end.

(** [for x in l: body]: each element in turn is bound to [x], which
    stays bound after the loop. *)
Fixpoint for_ (x : string) (l : list value) (body : py unit) : py unit :=
  match l with
  | [] => ret tt
  | v :: l => set x v;; body;; for_ x l body
  end.

(** *** The library *)

(** Modelled from the spec: the dataset download helper [untar_data],
    whose code is in the library and not in the documents.  It returns
    the folder of the dataset; the notebook shows the folder of
    [URLs.IMDB_SAMPLE].  What it downloads is the dataset, which is not
    among the files of the model. *)
Definition IMDB_SAMPLE : string := "imdb_sample".
Definition WT103 : string := "wt103".
Definition untar_data (url : string) : py value :=
  ret (VPath ("/home/ubuntu/.fastai/data/" +:+ url)).

(** Modelled from the spec: CSV loading [pd.read_csv] and class-list
    loading [read_classes] return the frame and the classes read from
    the file named, a file of the dataset.  What is in the file is not
    in the model: the head of a frame and an item of the classes are
    known by the file they are read from. *)
Definition read_csv (p : string) : py value := ret (VFrame p).
Definition read_classes (p : string) : py value := ret (VClasses p).

(** [df.head()] and [classes[i]]. *)
Definition head_of (v : value) : py value :=
  match v with
  | VFrame f => ret (VRows f 5)
  | _ => raise (AttributeError "head")
  end.

Definition item (v : value) (i : N) : py value :=
  match v with
  | VClasses f => ret (VItem f i)
  | _ => raise TypeError
  end.

(** Modelled from the spec: the cached artifacts of the split [name]
    under the [tmp] directory of the folder, as the notebook lists them:
    tokens, labels, ids of the tokens, and the dictionary. *)
Definition tmp (path file : string) : string := join (join path "tmp") file.

Definition itos (path : string) : string := tmp path "itos.pkl".

Definition artifacts (path name : string) : list string :=
  [tmp path (name +:+ "_tok.npy"); tmp path (name +:+ "_lbl.npy");
   tmp path (name +:+ "_id.npy"); itos path].

Definition cached (path name : string) (w : world) : bool :=
  forallb (λ p, bool_decide (p ∈ files w)) (artifacts path name).

(** Modelled from the spec: preprocessing of a split by the library's
    [TextDataset].  When the artifacts are on disk they are loaded;
    otherwise the split is tokenized and numericalized, which prints
    the notice the notebook shows, and the artifacts are persisted. *)
Definition preprocess (path name : string) : py unit := λ w,
  if cached path name w then note (Loaded name) w
  else
    (print (Said (ln ("Numericalizing " +:+ name +:+ ".")));;
     note (Preprocessed name))
      (World (globals w) (files w ∪ list_to_set (artifacts path name)) (others w)
             (models w) (heap w) (stdout w) (log w)).

(** Modelled from the spec: the library's [TextDataset] of a split,
    with the vocabulary passed to it, or its own when none is passed. *)
Definition TextDataset (path name : string) (vocab : option ref) : py ref :=
  preprocess path name;;
  v ← match vocab with
      | Some v => ret v
      | None => alloc (OVocab (itos path))
      end;
  alloc (ODataset name v).

(** Modelled from the spec: the factory methods.  [from_df] makes the
    dataset of the training split; [from_csv] makes a data bunch of the
    datasets of [train.csv] and [valid.csv], the validation set with the
    vocabulary of the training set. *)
Definition TextDataset_from_df (path df classes : value) : py value :=
  p ← as_path path;
  match df, classes with
  | VFrame _, VClasses _ => r ← TextDataset p "train" None; ret (VRef r)
  | _, _ => raise TypeError
  end.

Definition from_csv (t : task) (path : value) (vocab : option ref) (bs : N) : py value :=
  p ← as_path path;
  tr ← TextDataset p "train" vocab;
  v ← attr_vocab tr;
  va ← TextDataset p "valid" (Some v);
  r ← alloc (OBunch t tr va bs);
  ret (VRef r).

Definition TextLMDataBunch_from_csv (path : value) : py value :=
  from_csv language_model path None 64.

Definition TextClasDataBunch_from_csv (path vocab : value) (bs : N) : py value :=
  v ← as_ref vocab;
  o ← deref v;
  match o with
  | OVocab _ => from_csv classifier path (Some v) bs
  | _ => raise TypeError
  end.

(** Modelled from the spec: the learner factories make a new learner on
    a data bunch, frozen; the language model starts from pretrained
    weights. *)
Definition new_learner (t : task) (data : value) (m : model) : py value :=
  d ← as_ref data;
  o ← deref d;
  match o with
  | OBunch t' _ _ _ =>
      r ← alloc (OLearner (Learner d m frozen));
      ret (VRef r)
  | _ => raise TypeError
  end.

Definition RNNLearner_language_model (data : value) (pretrained_model drop_mult : string)
  : py value :=
  new_learner language_model data
    (with_pretrained (created language_model drop_mult) pretrained_model).

Definition RNNLearner_classifier (data : value) (drop_mult : string) : py value :=
  new_learner classifier data (created classifier drop_mult).

(** Modelled from the spec: the methods of a learner.  A fit trains the
    model on the learner's data in its current freeze state and prints
    its log; [freeze_to] and [unfreeze] change the freeze state;
    [save_encoder] persists the encoder under a name and [load_encoder]
    puts the encoder persisted under a name into the model, raising
    when there is none.  The encoders persisted are kept by name in
    [models], apart from the files of the cache. *)
Definition fit_one_cycle (learn : value) (cyc : N) (max_lr : expr) : py unit :=
  r ← as_ref learn;
  l ← get_learner r;
  store r (OLearner (Learner (l_data l)
                             (fitted (l_model l) (FitStep (l_data l) (l_frozen l) cyc max_lr))
                             (l_frozen l)));;
  print (TrainingLog cyc).

Definition set_frozen (learn : value) (f : freeze_state) : py unit :=
  r ← as_ref learn;
  l ← get_learner r;
  store r (OLearner (Learner (l_data l) (l_model l) f)).

Definition freeze_to (learn : value) (n : Z) : py unit := set_frozen learn (frozen_to n).
Definition unfreeze (learn : value) : py unit := set_frozen learn unfrozen.

Definition save_encoder (learn : value) (name : string) : py unit :=
  r ← as_ref learn;
  l ← get_learner r;
  λ w, Ok tt (World (globals w) (files w) (others w) (<[name := l_model l]> (models w))
                    (heap w) (stdout w) (log w)).

Definition load_encoder (learn : value) (name : string) : py unit :=
  r ← as_ref learn;
  l ← get_learner r;
  λ w, match models w !! name with
       | Some saved =>
           store r (OLearner (Learner (l_data l) (with_encoder_of (l_model l) saved)
                                      (l_frozen l))) w
       | None => Raise (FileNotFoundError name)
       end.

(** *** The cells *)

(** The code cells as computations, statement by statement.  A name is
    looked up in the namespace where the code reads it.  The last
    statement of cells 9, 11 and 13 is an expression, whose value the
    notebook shows. *)
Definition shows_9 : py value := get "path".

Definition run_9 : py unit :=
  path ← untar_data IMDB_SAMPLE; set "path" path;;
  _ ← shows_9; ret tt.

Definition shows_11 : py value := df ← get "df"; head_of df.

Definition run_11 : py unit :=
  path ← get "path"; p ← as_path path;
  df ← read_csv (join p "train.csv"); set "df" df;;
  _ ← shows_11; ret tt.

Definition shows_13 : py value :=
  classes ← get "classes"; c0 ← item classes 0;
  classes ← get "classes"; c1 ← item classes 1;
  ret (VTuple [c0; c1]).

Definition run_13 : py unit :=
  path ← get "path"; p ← as_path path;
  classes ← read_classes (join p "classes.txt"); set "classes" classes;;
  _ ← shows_13; ret tt.

(** [path/'tmp'/file], as the loop of cell 16 writes it twice. *)
Definition tmp_of_file : py value :=
  path ← get "path"; d ← truediv path (VStr "tmp");
  file ← get "file"; truediv d file.

Definition run_16 : py unit :=
  for_ "file" [VStr "train_tok.npy"; VStr "valid_tok.npy"]
    (f ← tmp_of_file;
     there ← os_path_exists f;
     if there : bool then f ← tmp_of_file; os_remove f
     else ret tt).

Definition run_17 : py unit :=
  path ← get "path"; df ← get "df"; classes ← get "classes";
  train_ds ← TextDataset_from_df path df classes;
  set "train_ds" train_ds.

Definition run_19 : py unit :=
  path ← get "path";
  data_lm ← TextLMDataBunch_from_csv path; set "data_lm" data_lm;;
  path ← get "path";
  data_lm ← get "data_lm"; d ← as_ref data_lm; t ← attr_train_ds d; v ← attr_vocab t;
  data_clas ← TextClasDataBunch_from_csv path (VRef v) 32; set "data_clas" data_clas.

Definition run_23 : py unit :=
  data_lm ← get "data_lm";
  learn ← RNNLearner_language_model data_lm WT103 "0.5"; set "learn" learn;;
  learn ← get "learn"; fit_one_cycle learn 1 (Float "1e-2").

Definition run_25 : py unit :=
  learn ← get "learn"; unfreeze learn;;
  learn ← get "learn"; fit_one_cycle learn 1 (Float "1e-3").

Definition run_27 : py unit :=
  learn ← get "learn"; save_encoder learn "ft_enc".

Definition run_30 : py unit :=
  data_clas ← get "data_clas";
  learn ← RNNLearner_classifier data_clas "0.5"; set "learn" learn;;
  learn ← get "learn"; load_encoder learn "ft_enc";;
  learn ← get "learn"; fit_one_cycle learn 1 (Float "1e-2").

Definition run_32 : py unit :=
  learn ← get "learn"; freeze_to learn (-2);;
  learn ← get "learn";
  fit_one_cycle learn 1 max_lr_32.

Definition run_33 : py unit :=
  learn ← get "learn"; unfreeze learn;;
  learn ← get "learn";
  fit_one_cycle learn 1 max_lr_33.

(** The classifier phase: the last three code cells. *)
Definition classifier_phase : py unit := run_30;; run_32;; run_33.

(** The learner the classifier phase makes on the data bunch [d] with
    the encoder of the model [saved]. *)
Definition classifier_on (d : ref) (saved : model) : learner :=
  Learner d
    (fitted
       (fitted
          (fitted (with_encoder_of (created classifier "0.5") saved)
                  (FitStep d frozen 1 (Float "1e-2")))
          (FitStep d (frozen_to (-2)) 1 max_lr_32))
       (FitStep d unfrozen 1 max_lr_33))
    unfrozen.

(** The cells in the order of the notebook, with their positions.  The
    import cells (1 and 7) change nothing of the world: the names they
    bring are not in its namespace. *)
Definition cells : list (nat * py unit) :=
  [(1, ret tt); (7, ret tt); (9, run_9); (11, run_11); (13, run_13); (16, run_16);
   (17, run_17); (19, run_19); (23, run_23); (25, run_25); (27, run_27);
   (30, run_30); (32, run_32); (33, run_33)].

(** Running a cell captures what it prints: the world after it, with
    the cell's own output in [stdout]. *)
Definition run_cell (c : py unit) (w : world) : result unit :=
  c (World (globals w) (files w) (others w) (models w) (heap w) [] (log w)).

(** The worlds after each cell of a run, or the exception that stops
    it. *)
Fixpoint run (cs : list (nat * py unit)) (w : world) : exn + list (nat * world) :=
  match cs with
  | [] => inr []
  | (i, c) :: cs =>
      match run_cell c w with
      | Ok _ w' =>
          match run cs w' with
          | inr ws => inr ((i, w') :: ws)
          | inl e => inl e
          end
      | Raise e => inl e
      end
  end.

(** *** The run of the notebook *)

(** The folder of the sample, where [untar_data] puts it. *)
Definition folder : string := "/home/ubuntu/.fastai/data/" +:+ IMDB_SAMPLE.

(** A world with other files on disk. *)
Definition on_disk (on : gset string) (w : world) : world :=
  World (globals w) on (others w) (models w) (heap w) (stdout w) (log w).

(** A world with an entry at [p] that [os.remove] does not delete. *)
Definition with_entry (p : string) (k : entry) (w : world) : world :=
  World (globals w) (files w) (<[p := k]> (others w)) (models w) (heap w) (stdout w) (log w).

(** The worlds after each cell when the session starts on an empty
    disk, and the world after cell [i] among them. *)
Definition empty_run : list (nat * world) :=
  Eval vm_compute in
    match run cells (fresh ∅) with inr ws => ws | inl _ => [] end.

Definition world_after (i : nat) : world :=
  default (fresh ∅) (snd <$> head (filter (λ iw, bool_decide (iw.1 = i)) empty_run)).

(** The files on disk after cell [i], for a session that starts with
    the files [on]: the loop of cell 16 removes the two token files,
    cell 17 persists the artifacts of the training set and cell 19 those
    of the validation set. *)
Definition disk_after (i : nat) (on : gset string) : gset string :=
  if bool_decide (i < 16) then on
  else
    let after_16 := on ∖ {[tmp folder "train_tok.npy"; tmp folder "valid_tok.npy"]} in
    if bool_decide (i < 17) then after_16
    else
      let after_17 := after_16 ∪ list_to_set (artifacts folder "train") in
      if bool_decide (i < 19) then after_17
      else after_17 ∪ list_to_set (artifacts folder "valid").

(** The worlds after each cell, as they are when the session starts
    with the files [on]. *)
Definition run_on (on : gset string) : list (nat * world) :=
  (λ i, (i, on_disk (disk_after i on) (world_after i))) <$> cells.*1.

(** The vocabulary of the training set of the data bunch a name is
    bound to: [x.train_ds.vocab]. *)
Definition vocab_of (x : string) (w : world) : option ref :=
  match (d ← get x; r ← as_ref d; t ← attr_train_ds r; attr_vocab t) w with
  | Ok v _ => Some v
  | Raise _ => None
  end.

(** The learner a name is bound to. *)
Definition learner_of (x : string) (w : world) : option (ref * learner) :=
  match (v ← get x; r ← as_ref v; l ← get_learner r; ret (r, l)) w with
  | Ok rl _ => Some rl
  | Raise _ => None
  end.

(** What a cell has printed is what the notebook has captured from its
    standard output: the same text, or for a fit a log of as many rows
    as epochs. *)
Definition writes (p : printed) (o : output) : Prop :=
  match p, o with
  | Said s, stream "stdout" text => String.concat "" text = s
  | TrainingLog n, stream "stdout" text =>
      training_log_rows (String.concat "" text) = Some (N.to_nat n)
  | _, _ => False
  end.

Definition is_stream (o : output) : bool :=
  match o with stream _ _ => true | _ => false end.

Definition cell_at (i : nat) : cell := default (markdown []) (text_ipynb !! i).

Definition captured (i : nat) (w : world) : Prop :=
  Forall2 writes (stdout w) (filter (λ o, is_stream o) (cell_outputs (cell_at i))).

(** *** Two runs of the session *)

(** The value a cell shows, in the world the cell leaves: that of its
    last statement when it is an expression.  The expressions shown
    read the namespace and change nothing. *)
Definition shows : list (nat * py value) := [(9, shows_9); (11, shows_11); (13, shows_13)].

Definition displayed (i : nat) (w : world) : option value :=
  match snd <$> head (filter (λ ie, bool_decide (ie.1 = i)) shows) with
  | Some e => match e w with Ok v _ => Some v | Raise _ => None end
  | None => None
  end.

(** Modelled from the spec: the results of training are stochastic.
    What the library draws at random in a run of the session (the order
    of the batches, the dropout, the weights of the layers it adds) is
    the [seed] of the run.  Two runs of the session may differ in their
    seed and in what is on disk when they start. *)
Definition seed : Type := N.

Record session_run : Type := Run {
  seed_of : seed;
  disk_of : gset string }.

Section two_runs.

(** Modelled from the spec: the log of a fit, with its time, its losses
    and its accuracy, is the library's, printed from the model fitted
    in the run of a seed.  The code that trains and prints is not in the
    documents; [fit_log] stands for it. *)
Variable fit_log : seed → model → string.

(** Training is stochastic when for every model fitted there are two
    seeds with different logs. *)
Definition stochastic : Prop := ∀ m : model, ∃ s1 s2 : seed, fit_log s1 m ≠ fit_log s2 m.

(** The text of what a cell has printed.  A cell of the notebook fits
    at most once and last, so that the log it has printed is that of
    the model of [learn] in the world it leaves. *)
Definition text_of_printed (s : seed) (w : world) (p : printed) : string :=
  match p with
  | Said t => t
  | TrainingLog _ =>
      match learner_of "learn" w with
      | Some (_, l) => fit_log s (l_model l)
      | None => ""
      end
  end.

(** The output of cell [i] in a run: the texts it prints and the value
    it shows. *)
Definition output_in (r : session_run) (i : nat) : option (list string * option value) :=
  match run cells (fresh (disk_of r)) with
  | inr ws =>
      (λ w, (text_of_printed (seed_of r) w <$> stdout w, displayed i w)) <$>
        (snd <$> head (filter (λ iw, bool_decide (iw.1 = i)) ws))
  | inl _ => None
  end.

End two_runs.

(** A library whose logs show the seed, for one: its losses are read
    off the seed. *)
Definition seeded_log (s : seed) (m : model) : string :=
  lines ["Total time: 00:18"; "epoch  train_loss  valid_loss  accuracy";
         "1      4." +:+ pretty s +:+ "    4." +:+ pretty s +:+ "    0.25  (00:18)"; ""; ""].

End Session.

(** ** The two documents side by side *)

(** An output of the notebook and what the page shows in its place:
    preformatted text is the same text, markup is set on lines of its
    own. *)
Definition same_display (o : output) (on_page : option display) : Prop :=
  match nb_display o, on_page with
  | Some (Pre a), Some (Pre b) => b = a
  | Some (Markup a), Some (Markup b) => b = LF +:+ a +:+ LF
  | _, _ => False
  end.

(** The page shows the source of a code cell with a line feed after
    it. *)
Definition same_source (source : list string) (h : html) : Prop :=
  html_source h = Some (String.concat "" source +:+ LF).

(** A cell of the page mirrors a cell of the notebook: the same kind of
    cell, with the same rendered text (word for word) for a markdown
    cell, and the same source and the same outputs for a code cell. *)
Definition mirrors (c : cell) (h : html) : Prop :=
  match c with
  | markdown source =>
      html_kind h = Some text_cell ∧
      String.words (html_text h) = String.words (md_text source)
  | code _ source outputs =>
      html_kind h = Some code_cell ∧
      same_source source h ∧
      Forall2 same_display outputs (html_outputs h)
  end.

(** A cell of the page is the export of a cell of the notebook: it
    mirrors it, except that a code cell whose [hide_input] flag is set is
    exported without its source. *)
Definition exported (c : cell) (h : html) : Prop :=
  match c with
  | code true _ outputs =>
      html_kind h = Some code_cell ∧
      html_source h = None ∧
      Forall2 same_display outputs (html_outputs h)
  | _ => mirrors c h
  end.

(** ** More of the two documents *)

(** *** Links, headings and lists *)

(** The targets of the links of a markdown text, in order: what stands
    between [](] and the next [)]. *)
Fixpoint md_targets (cur : option string) (s : string) : list string :=
  match cur, s with
  | _, "" => []
  | None, String "]" (String "(" r) => md_targets (Some "") r
  | None, String _ r => md_targets None r
  | Some t, String c r =>
      if bool_decide (c = ")"%char) then String.rev t :: md_targets None r
      else md_targets (Some (String c t)) r
  end.

Definition md_links (c : cell) : list string :=
  match c with
  | markdown source => md_targets None (String.concat "" source)
  | code _ _ _ => []
  end.

(** The targets of the links of a cell of the page, in order, the
    anchor links of headings aside. *)
Definition is_anchor (h : html) : bool := has_tag "a" h && has_class "anchor-link" h.
Definition is_link (h : html) : bool := has_tag "a" h && negb (has_class "anchor-link" h).

Definition html_links (h : html) : list string := attr "href" <$> select is_link h.

(** The headings of a markdown source: for each line that starts with
    [#], the number of [#] and the words of the text. *)
Fixpoint count_hashes (s : string) : nat :=
  match s with
  | String "#" s' => S (count_hashes s')
  | _ => 0
  end.

Definition md_headings (c : cell) : list (nat * list string) :=
  match c with
  | markdown source =>
      (λ l, (count_hashes l, String.words (md_inline md_plain (md_block l)))) <$>
        filter (λ l, bool_decide (0 < count_hashes l)) source
  | code _ _ _ => []
  end.

(** The headings of a cell of the page: the level of the element, its
    [id], the words of its text and the target of its anchor link. *)
Definition heading_level (h : html) : option nat :=
  match h with
  | Elem "h1" _ _ => Some 1
  | Elem "h2" _ _ => Some 2
  | Elem "h3" _ _ => Some 3
  | Elem "h4" _ _ => Some 4
  | Elem "h5" _ _ => Some 5
  | Elem "h6" _ _ => Some 6
  | _ => None
  end.

Definition html_headings (h : html) : list (nat * string * list string * list string) :=
  (λ e, (default 0 (heading_level e), attr "id" e,
         String.words (text_of is_anchor e),
         attr "href" <$> select is_anchor e)) <$>
    select (λ e, bool_decide (is_Some (heading_level e))) h.

(** The identifier the export gives a heading: its words joined by
    hyphens. *)
Definition slug (ws : list string) : string := String.concat "-" ws.

(** The items of the lists of a markdown source: for each line that
    starts with [- ] or with a digit and [. ], whether the list is
    numbered and the words of the item. *)
Definition md_item (l : string) : option (bool * list string) :=
  match l with
  | String "-" (String " " r) => Some (false, String.words (md_inline md_plain r))
  | String d (String "." (String " " r)) =>
      match Ascii.is_nat d with
      | Some _ => Some (true, String.words (md_inline md_plain r))
      | None => None
      end
  | _ => None
  end.

Definition md_items (c : cell) : list (bool * list string) :=
  match c with
  | markdown source => omap md_item source
  | code _ _ _ => []
  end.

(** The items of the lists of a cell of the page: for each [li] of an
    [ol] or a [ul], whether the list is numbered and the words of the
    item. *)
Definition html_items (h : html) : list (bool * list string) :=
  select (λ e, has_tag "ol" e || has_tag "ul" e) h ≫=
    (λ l, (λ li, (has_tag "ol" l, String.words (text_of (λ _, false) li))) <$>
            filter (λ e, has_tag "li" e) (children l)).

(** *** The table of a frame, once more *)

(** The lines of a table of the page: for each row of its head and of
    its body, the words of its cells. *)
Definition table_lines (h : html) : list (list string) :=
  (λ tr, String.words (String.concat " " (text_of (λ _, false) <$> children tr))) <$>
    select (has_tag "tr") h.

(** An output that has a [text/html] and a [text/plain] form shows the
    same table in both: the words of the lines of the plain text are the
    words of the rows of the table. *)
Definition same_table (o : output) (area : html) : Prop :=
  match o with
  | execute_result data =>
      match mime "text/html" data, mime "text/plain" data with
      | Some _, Some plain => String.words <$> split_lines plain = table_lines area
      | _, _ => True
      end
  | stream _ _ => True
  end.

(** A cell of the page with nothing in it but blank text. *)
Definition is_blank (h : html) : bool :=
  match h with
  | Text s => bool_decide (String.words s = [])
  | _ => false
  end.

Definition is_empty_cell (h : html) : bool := forallb is_blank (children h).

(** *** The highlighting of the code *)

(** The names of Python the code uses without importing them. *)
Definition builtins : list string := ["slice"].

(** The tokens of the code that are not keywords, operators or
    punctuation, each with the class a highlighter gives it: names
    ([n]), builtins ([nb]), modules ([nn]), strings ([s1]), integers
    ([mi]), floats ([mf]) and constants ([kc]). *)
Fixpoint tokens_expr (e : expr) : list (string * string) :=
  match e with
  | Name id => [(if bool_decide (id ∈ builtins) then "nb" else "n", id)]
  | Str s => [("s1", "'" +:+ s +:+ "'")]
  | Int n => [("mi", pretty n)]
  | Float lit => [("mf", lit)]
  | NoneC => [("kc", "None")]
  | Attribute v a => tokens_expr v ++ [("n", a)]
  | Call f args kws =>
      tokens_expr f ++ mjoin (tokens_expr <$> args) ++
      mjoin ((λ kw, ("n", kw.1) :: tokens_expr kw.2) <$> kws)
  | Div l r => tokens_expr l ++ tokens_expr r
  | USub e => tokens_expr e
  | Subscript v i => tokens_expr v ++ tokens_expr i
  | Tuple es | List es => mjoin (tokens_expr <$> es)
  end.

Fixpoint tokens_stmt (s : stmt) : list (string * string) :=
  match s with
  | ImportFrom m => [("nn", m)]
  | Assign x e => ("n", x) :: tokens_expr e
  | Expr e => tokens_expr e
  | For x it body => ("n", x) :: tokens_expr it ++ mjoin (tokens_stmt <$> body)
  | If c body => tokens_expr c ++ mjoin (tokens_stmt <$> body)
  | FunctionDef f ps body => ("nf", f) :: ((λ p, ("n", p)) <$> ps) ++ mjoin (tokens_stmt <$> body)
  | ClassDef c body => ("nc", c) :: mjoin (tokens_stmt <$> body)
  end.

(** The highlighted tokens of a code cell of the page: the [span]s of
    its source with one of these classes, each with its text. *)
Definition html_tokens (h : html) : list (string * string) :=
  filter (λ ct, bool_decide (ct.1 ∈ ["n"; "nb"; "nn"; "s1"; "mi"; "mf"; "kc"; "nf"; "nc"]))
    ((λ e, (attr "class" e, text_of (λ _, false) e)) <$>
       (select (has_class "input_area") h ≫= select (has_tag "span"))).

(** *** Names that are read and names that are bound *)

(** The names an expression reads. *)
Fixpoint reads_expr (e : expr) : list string :=
  match e with
  | Name id => [id]
  | Str _ | Int _ | Float _ | NoneC => []
  | Attribute v _ => reads_expr v
  | Call f args kws =>
      reads_expr f ++ mjoin (reads_expr <$> args) ++ mjoin ((λ kw, reads_expr kw.2) <$> kws)
  | Div l r => reads_expr l ++ reads_expr r
  | USub e => reads_expr e
  | Subscript v i => reads_expr v ++ reads_expr i
  | Tuple es | List es => mjoin (reads_expr <$> es)
  end.

Fixpoint reads (s : stmt) : list string :=
  match s with
  | ImportFrom _ => []
  | Assign _ e | Expr e => reads_expr e
  | For _ it body => reads_expr it ++ mjoin (reads <$> body)
  | If c body => reads_expr c ++ mjoin (reads <$> body)
  | FunctionDef _ _ body | ClassDef _ body => mjoin (reads <$> body)
  end.

(** The modules a statement star-imports, itself or in its body. *)
Fixpoint star_imports (s : stmt) : list string :=
  match s with
  | ImportFrom m => [m]
  | For _ _ body | If _ body => mjoin (star_imports <$> body)
  | _ => []
  end.

(** The reads of a statement that find a name no statement has bound
    before and that is not built in, given the names bound and the
    modules star-imported before the statement: each read with the
    modules imported by then, which alone can have brought the name.
    Names are read in the order of evaluation; the target of a loop is
    bound in its body, and a statement of a body after those before
    it. *)
Fixpoint free_reads_stmt (bound mods : list string) (s : stmt) : list (string * list string) :=
  let free e :=
    (λ id, (id, mods)) <$>
      filter (λ id, negb (bool_decide (id ∈ bound)) && negb (bool_decide (id ∈ builtins)))
             (reads_expr e) in
  let block :=
    fix go (bound mods : list string) (body : list stmt) : list (string * list string) :=
      match body with
      | [] => []
      | b :: body =>
          free_reads_stmt bound mods b ++ go (binds b ++ bound) (star_imports b ++ mods) body
      end in
  match s with
  | ImportFrom _ => []
  | Assign _ e | Expr e => free e
  | For x it body => free it ++ block (x :: bound) mods body
  | If c body => free c ++ block bound mods body
  | FunctionDef _ _ _ | ClassDef _ _ => []
  end.

Fixpoint free_reads_from (bound mods : list string) (body : list stmt)
  : list (string * list string) :=
  match body with
  | [] => []
  | s :: body =>
      free_reads_stmt bound mods s ++
      free_reads_from (binds s ++ bound) (star_imports s ++ mods) body
  end.

Definition free_reads (body : list stmt) : list (string * list string) :=
  free_reads_from [] [] body.

(** What a star import brings is the library's to say: [exports m] are
    the names of module [m].  The names a sequence of statements reads
    before anything has bound them are the free reads that no module
    imported by then brings. *)
Definition unbound (exports : string → list string) (body : list stmt) : list string :=
  (filter (λ xm : string * list string,
             negb (existsb (λ m, bool_decide (xm.1 ∈ exports m)) xm.2))
          (free_reads body)).*1.

(** The names a sequence of statements binds and does not read. *)
Definition unused (body : list stmt) : list string :=
  filter (λ x, bool_decide (x ∉ mjoin (reads <$> body)))
         (remove_dups (mjoin (binds <$> body))).

(** *** The cells that have an output *)

(** The positions of the cells of the notebook that have an output:
    those that train and those that do not. *)
Definition output_cells (training : bool) : list nat :=
  (filter (λ icb : nat * (cell * list stmt),
             has_output icb.2.1 && bool_decide (trains icb.2.2 = training))
          (imap pair notebook)).*1.

(** * Theorems *)

(** ** The page and the notebook *)

(** Closing a goal by evaluation. *)
Ltac by_eval := vm_compute; first [ reflexivity | exact I | done ].

(** A goal about the outputs of a cell of the page: evaluate which they
    are, then compare them one by one. *)
Ltac eval_right_list :=
  match goal with
  | |- Forall2 _ _ ?r =>
      let r' := eval vm_compute in r in
      replace r with r' by (vm_compute; reflexivity)
  end.

Ltac same_outputs :=
  eval_right_list;
  repeat first [ apply Forall2_nil_2 | apply Forall2_cons_2; [ by_eval | ] ].

(** The syntax trees of the cells are the code of the cells: written
    back as text, each is the source of its cell, comments aside. *)
Lemma text_code_faithful : Forall2 code_of text_ipynb text_code.
Proof. repeat (apply Forall2_cons_2; [ by_eval | ]). apply Forall2_nil_2. Qed.

(** The cells of the page. *)
Lemma html_cells_text_html :
  html_cells text_html =
  [html_cell_0; html_cell_1; html_cell_2; html_cell_3; html_cell_4; html_cell_5;
   html_cell_6; html_cell_7; html_cell_8; html_cell_9; html_cell_10; html_cell_11;
   html_cell_12; html_cell_13; html_cell_14; html_cell_15; html_cell_16; html_cell_17;
   html_cell_18; html_cell_19; html_cell_20; html_cell_21; html_cell_22; html_cell_23;
   html_cell_24; html_cell_25; html_cell_26; html_cell_27; html_cell_28; html_cell_29;
   html_cell_30; html_cell_31; html_cell_32; html_cell_33].
Proof. vm_compute. reflexivity. Qed.

(** The second cell of the notebook has a source, and the second cell of
    the page shows none. *)
Lemma hidden_import :
  text_ipynb !! 1 = Some cell_1 ∧ html_cells text_html !! 1 = Some html_cell_1 ∧
  html_source html_cell_1 = None.
Proof. rewrite html_cells_text_html. split; [ | split ]; by_eval. Qed.

(** C1, as stated, fails: the page does not mirror every cell of the
    notebook.  The import cell [from fastai.gen_doc.nbdoc import *] of
    the notebook has its [hide_input] flag set, and the cell of the page
    in its place shows no source. *)
Lemma C1_page_does_not_mirror_notebook :
  ¬ Forall2 mirrors text_ipynb (html_cells text_html).
Proof.
  intros H.
  destruct hidden_import as (Hc & Hh & Hnone).
  pose proof (Forall2_lookup_lr _ _ _ _ _ _ H Hc Hh) as (_ & Hsrc & _).
  unfold same_source in Hsrc. rewrite Hnone in Hsrc. discriminate.
Qed.

Ltac cell_exported :=
  lazymatch goal with
  | |- exported ?c ?h =>
      let c' := eval red in c in
      change (exported c' h);
      cbv beta iota delta [exported mirrors same_source];
      repeat lazymatch goal with
             | |- _ ∧ _ => split
             | |- Forall2 _ _ _ => same_outputs
             | |- _ = _ => by_eval
             end
  end.

(** C1, amended: the page is the export of the notebook cell by cell.
    It has a cell for every cell of the notebook and no other, in the
    same order; a markdown cell has the same rendered text; a code cell
    has the same source and the same outputs, unless its [hide_input]
    flag is set, in which case the page shows no source for it. *)
Theorem C1_page_is_export_of_notebook :
  Forall2 exported text_ipynb (html_cells text_html).
Proof.
  rewrite html_cells_text_html. unfold text_ipynb.
  repeat (apply Forall2_cons_2; [ cell_exported | ]).
  apply Forall2_nil_2.
Qed.

(** ** The code of the notebook *)

(** The loop of the cache-deletion cell is a statement of the notebook,
    and it is neither an import nor a call. *)
Lemma loop_is_compound :
  ∃ s, classified !! 9 = Some (s, a_compound) ∧ code_16 = [s].
Proof. eexists. split; by_eval. Qed.

(** C2, as stated, fails: not every statement of the notebook is an
    import or a call into a library.  The statement of the hidden
    cache-deletion cell is a [for] loop over an [if]. *)
Lemma C2_not_only_imports_and_calls :
  ¬ (Forall (λ sk, import_or_call sk.2 = true) classified ∧
     Forall (λ s, defines s = false) statements).
Proof.
  intros [H _].
  destruct loop_is_compound as (s & Hs & _).
  rewrite Forall_lookup in H. specialize (H _ _ Hs). discriminate.
Qed.

(** C2, amended: no statement of the notebook defines a function or a
    class.  Every statement is an import or a call into fastai or
    pandas, but for three: the expressions [path] and
    [classes[0], classes[1]], which display bound values, and the [for]
    loop of the cache-deletion cell, whose calls go into os.  The loop
    is in a cell whose input the page hides: every statement the page
    shows is a simple one. *)
Theorem C2_statements_define_nothing :
  Forall (λ s, defines s = false) statements ∧
  Forall (λ sk, sk.2 ∈ [an_import; a_call fastai; a_call pandas; a_display; a_compound])
         classified ∧
  filter (λ sk, negb (import_or_call sk.2)) classified =
    [(Expr (Name "path"), a_display);
     (Expr (Tuple [Subscript (Name "classes") (Int 0); Subscript (Name "classes") (Int 1)]),
      a_display);
     (For "file" (List [Str "train_tok.npy"; Str "valid_tok.npy"])
        [If (Call (Attribute (Attribute (Name "os") "path") "exists") [tmp_file] [])
            [Expr (Call (Attribute (Name "os") "remove") [tmp_file] [])]],
      a_compound)] ∧
  Forall (λ c, library_of ∅ c = Some os) (calls code_16) ∧
  Forall (λ s, is_simple s = true) shown_statements ∧
  Forall2 code_of text_ipynb text_code.
Proof.
  split; [ | split; [ | split; [ | split; [ | split ] ] ] ].
  - compute_done.
  - compute_done.
  - by_eval.
  - compute_done.
  - compute_done.
  - exact text_code_faithful.
Qed.

(** ** The calls the documents demonstrate *)

(** The call [RNNLearner.language_model] is in a cell whose input both
    documents show, and it is in none of the five groups. *)
Lemma language_model_outside_groups :
  ["RNNLearner"; "language_model"] ∈ calls shown_statements ∧
  group_of ["RNNLearner"; "language_model"] = None.
Proof. split; compute_done. Qed.

(** C3, as stated, fails: a demonstrated call falls outside the five
    groups.  [RNNLearner.language_model] makes a learner: it is neither
    a factory of a dataset or a data bunch nor a method of a learner
    object. *)
Lemma C3_call_outside_groups :
  ¬ Forall (λ c, is_Some (group_of c)) (calls shown_statements).
Proof.
  intros H. destruct language_model_outside_groups as [Hin Hnone].
  rewrite Forall_forall in H. specialize (H _ Hin).
  rewrite Hnone in H. by destruct H.
Qed.

(** C3, amended: every call demonstrated belongs to one of the five
    groups, each of which has a call, or is one of these: [df.head],
    the learner factories [RNNLearner.language_model] and
    [RNNLearner.classifier], the builtin [slice], and, in the cell of
    the notebook whose input the page hides, [os.path.exists] and
    [os.remove]. *)
Theorem C3_calls_by_group :
  outside_groups shown_statements =
    [["df"; "head"]; ["RNNLearner"; "language_model"]; ["RNNLearner"; "classifier"];
     ["slice"]; ["slice"]] ∧
  outside_groups statements =
    [["df"; "head"]; ["os"; "path"; "exists"]; ["os"; "remove"];
     ["RNNLearner"; "language_model"]; ["RNNLearner"; "classifier"];
     ["slice"]; ["slice"]] ∧
  (∀ c, c ∈ calls statements → is_Some (group_of c) ∨ c ∈ outside_groups statements) ∧
  (∀ g : group, Some g ∈ group_of <$> calls shown_statements).
Proof.
  split; [ by_eval | split; [ by_eval | split ] ].
  - intros c Hc. unfold outside_groups.
    destruct (group_of c) eqn:Hg; [ left; eauto | right ].
    apply list_elem_of_filter. split; [ | done ].
    apply bool_decide_pack. done.
  - intros []; compute_done.
Qed.

(** ** The data the notebook shows *)

(** C4: the frame of the notebook is read from the CSV file
    [train.csv]; the table shown for it has two columns, named 0 and 1,
    and in each of its rows an integer in the first and text that is
    not an integer in the second; the classes are read from
    [classes.txt], and the cell that shows [classes[0], classes[1]] has
    the output [('negative', 'positive')]. *)
Theorem C4_frame_and_classes :
  (∃ body, code_of cell_11 body ∧
     head body = Some (Assign "df" (Call (Attribute (Name "pd") "read_csv")
                                         [Div (Name "path") (Str "train.csv")]
                                         [("header", NoneC)])) ∧
     last body = Some (Expr (Call (Attribute (Name "df") "head") [] []))) ∧
  Forall2 same_display (cell_outputs cell_11) (html_outputs html_cell_11) ∧
  table_columns html_cell_11 = [""; "0"; "1"] ∧
  length (table_rows html_cell_11) = 5 ∧
  Forall (λ row, ∃ label text, row = [label; text] ∧
                   is_integer label = true ∧ is_integer text = false)
         (table_rows html_cell_11) ∧
  (∃ body, code_of cell_13 body ∧
     body = [Assign "classes" (Call (Name "read_classes")
                                    [Div (Name "path") (Str "classes.txt")] []);
             Expr (Tuple [Subscript (Name "classes") (Int 0);
                          Subscript (Name "classes") (Int 1)])]) ∧
  nb_display <$> cell_outputs cell_13 = [Some (Pre (repr_tuple ["negative"; "positive"]))].
Proof.
  split; [ exists code_11; split; [ by_eval | split; by_eval ] | ].
  split; [ same_outputs | ].
  split; [ by_eval | split; [ by_eval | ] ].
  split; [ | split; [ exists code_13; split; by_eval | by_eval ] ].
  match goal with
  | |- Forall _ ?r =>
      let r' := eval vm_compute in r in
      replace r with r' by (vm_compute; reflexivity)
  end.
  repeat (apply Forall_cons_2; [ do 2 eexists; split; [ reflexivity | split; by_eval ] | ]).
  apply Forall_nil_2.
Qed.

(** ** The order of the calls on the learner *)

(** What the notebook does to [learn], in order.  The encoder is saved
    as ['ft_enc'] after the fits of the language model; the classifier
    made next loads ['ft_enc'] before its first fit; then come
    [freeze_to(-2)] and a fit, then [unfreeze] and a fit. *)
Lemma learn_events_in_order :
  learn_events statements =
    [makes "language_model";
     method "fit_one_cycle" [Int 1; Float "1e-2"];
     method "unfreeze" [];
     method "fit_one_cycle" [Int 1; Float "1e-3"];
     method "save_encoder" [Str "ft_enc"];
     makes "classifier";
     method "load_encoder" [Str "ft_enc"];
     method "fit_one_cycle" [Int 1; Float "1e-2"];
     method "freeze_to" [USub (Int 2)];
     method "fit_one_cycle" [Int 1; max_lr_32];
     method "unfreeze" [];
     method "fit_one_cycle" [Int 1; max_lr_33]].
Proof. by_eval. Qed.

(** ** The session *)

Import Session.
Local Open Scope py_scope.

Ltac fields := cbn [globals files others models heap stdout log].
Ltac tidy := cbn [globals files others models heap stdout log on_disk].
Ltac closed := vm_compute; reflexivity.

(** *** Computations step by step *)

Lemma bind_ok {A B} (m : py A) (k : A → py B) (w w' : world) (a : A) :
  m w = Ok a w' → bind m k w = k a w'.
Proof. unfold bind. by intros ->. Qed.

Lemma bind_assoc {A B C} (m : py A) (f : A → py B) (k : B → py C) (w : world) :
  bind (bind m f) k w = bind m (λ x, bind (f x) k) w.
Proof. unfold bind. by destruct (m w). Qed.

Lemma get_ok (x : string) (v : value) (w : world) :
  globals w !! x = Some v → get x w = Ok v w.
Proof. unfold get. by intros ->. Qed.

(** The first computation of a sequence returns, by [tac]. *)
Ltac next tac := rewrite ?bind_assoc; erewrite bind_ok by tac; cbv beta iota.
Ltac next_with tac := rewrite ?bind_assoc; erewrite bind_ok; [ cbv beta iota | tac ].

(** Looking up a name in a namespace that is known. *)
Ltac look_up :=
  lazymatch goal with
  | |- get ?x ?w = _ =>
      let g := eval cbn [globals on_disk] in (globals w) in
      let r := eval vm_compute in (g !! x) in
      lazymatch r with
      | Some ?v => apply (get_ok x v w); vm_compute; reflexivity
      end
  end.

Ltac open_calls :=
  unfold TextDataset_from_df, TextLMDataBunch_from_csv, TextClasDataBunch_from_csv,
    from_csv, TextDataset, attr_vocab, attr_train_ds.
Ltac steps := repeat (open_calls; next ltac:(first [ look_up | reflexivity ]); tidy).

(** The folder of the session is the one the notebook shows for
    [path]. *)
Lemma folder_as_shown :
  nb_display <$> cell_outputs cell_9 = [Some (Pre ("PosixPath('" +:+ folder +:+ "')"))] ∧
  globals (world_after 9) !! "path" = Some (VPath folder).
Proof. split; closed. Qed.

(** *** The cache-deletion loop *)

(** [path/'tmp'/file] where [path] is a path and [file] a string. *)
Lemma tmp_of_file_ok (w : world) (p f : string) :
  globals w !! "path" = Some (VPath p) →
  globals w !! "file" = Some (VStr f) →
  tmp_of_file w = Ok (VPath (tmp p f)) w.
Proof.
  intros Hp Hf. unfold tmp_of_file.
  next ltac:(apply get_ok; exact Hp). next ltac:(reflexivity).
  next ltac:(apply get_ok; exact Hf). reflexivity.
Qed.

(** The body of the loop, for one file.  Where the entry at the path is
    one that [os.remove] does not delete, the test holds and the body
    raises the error of [os.remove]; otherwise the file is not there
    afterwards, and nothing else has changed. *)
Lemma remove_if_exists (w : world) (p f : string) :
  globals w !! "path" = Some (VPath p) →
  globals w !! "file" = Some (VStr f) →
  (x ← tmp_of_file;
   there ← os_path_exists x;
   if there : bool then x ← tmp_of_file; os_remove x else ret tt) w =
  match others w !! tmp p f with
  | Some k => Raise (cannot_remove k (tmp p f))
  | None =>
      Ok tt (World (globals w) (files w ∖ {[tmp p f]}) (others w) (models w) (heap w)
                   (stdout w) (log w))
  end.
Proof.
  intros Hp Hf.
  next ltac:(by apply tmp_of_file_ok).
  unfold os_path_exists, os_remove, fspath, exists_at.
  next ltac:(reflexivity). unfold bind at 1.
  destruct (others w !! tmp p f) as [k|] eqn:Hk.
  - rewrite orb_true_r.
    next ltac:(by apply tmp_of_file_ok). next ltac:(reflexivity).
    by rewrite Hk.
  - rewrite orb_false_r. destruct (bool_decide (tmp p f ∈ files w)) eqn:Hin.
    + next ltac:(by apply tmp_of_file_ok). next ltac:(reflexivity).
      by rewrite Hk, Hin.
    + destruct w as [g fs ot m h o l]. unfold ret. fields. cbn [files] in Hin.
      do 2 f_equal. apply bool_decide_eq_false_1 in Hin. set_solver.
Qed.

(** The loop, wherever [path] is a path: it raises the error of
    [os.remove] for the first of the two paths at which there is an
    entry that [os.remove] does not delete; when there is none it
    returns, with [file] bound to the second name and the two files
    gone. *)
Lemma run_16_cases (w : world) (p : string) :
  globals w !! "path" = Some (VPath p) →
  run_16 w =
    match others w !! tmp p "train_tok.npy" with
    | Some k => Raise (cannot_remove k (tmp p "train_tok.npy"))
    | None =>
        match others w !! tmp p "valid_tok.npy" with
        | Some k => Raise (cannot_remove k (tmp p "valid_tok.npy"))
        | None =>
            Ok tt (World (<["file" := VStr "valid_tok.npy"]> (globals w))
                         (files w ∖ {[tmp p "train_tok.npy"; tmp p "valid_tok.npy"]})
                         (others w) (models w) (heap w) (stdout w) (log w))
        end
    end.
Proof.
  intros Hp. destruct w as [g fs ot m h o l]. cbn [globals] in Hp. fields.
  unfold run_16, for_.
  next ltac:(reflexivity). fields.
  unfold bind at 1.
  rewrite (remove_if_exists _ p "train_tok.npy");
    [ | fields; by rewrite !lookup_insert_ne | fields; by rewrite lookup_insert_eq ].
  fields. destruct (ot !! tmp p "train_tok.npy"); [ done | ].
  next ltac:(reflexivity). fields.
  unfold bind at 1.
  rewrite (remove_if_exists _ p "valid_tok.npy");
    [ | fields; by rewrite !lookup_insert_ne | fields; by rewrite lookup_insert_eq ].
  fields. destruct (ot !! tmp p "valid_tok.npy"); [ done | ].
  unfold ret. rewrite insert_insert_eq. do 2 f_equal. set_solver.
Qed.

Lemma run_16_files (w : world) (p : string) :
  globals w !! "path" = Some (VPath p) →
  others w !! tmp p "train_tok.npy" = None →
  others w !! tmp p "valid_tok.npy" = None →
  run_16 w =
    Ok tt (World (<["file" := VStr "valid_tok.npy"]> (globals w))
                 (files w ∖ {[tmp p "train_tok.npy"; tmp p "valid_tok.npy"]})
                 (others w) (models w) (heap w) (stdout w) (log w)).
Proof. intros Hp Ha Hb. rewrite (run_16_cases w p Hp). by rewrite Ha, Hb. Qed.

(** Without the test, the loop raises when a file is not there. *)
Lemma remove_without_test_raises :
  for_ "file" [VStr "train_tok.npy"; VStr "valid_tok.npy"] (x ← tmp_of_file; os_remove x)
       (world_after 13) =
  Raise (FileNotFoundError (tmp folder "train_tok.npy")).
Proof. closed. Qed.

(** C8, as stated, fails: the loop can raise.  Where there is a
    directory at [path/'tmp'/'train_tok.npy'], [os.path.exists] holds
    for it and [os.remove] raises [IsADirectoryError]. *)
Lemma C8_loop_raises_on_directory :
  let w := with_entry (tmp folder "train_tok.npy") directory (world_after 13) in
  globals w !! "path" = Some (VPath folder) ∧
  os_path_exists (VPath (tmp folder "train_tok.npy")) w = Ok true w ∧
  run_16 w = Raise (IsADirectoryError (tmp folder "train_tok.npy")).
Proof. split; [ closed | split; closed ]. Qed.

(** C8, amended: in the loop [os.remove] is called under the test of
    [os.path.exists] on the same path.  Wherever [path] is a path, the
    loop does not raise [FileNotFoundError]: when it raises, it is the
    error of [os.remove] for one of the two paths, at which there is an
    entry that [os.remove] does not delete.  Where there is no such
    entry at the two paths, the loop returns: afterwards nothing exists
    at either path, no other file is gone, [file] is bound to the
    second name and nothing else has changed. *)
Theorem C8_cache_deletion_loop (w : world) (p : string) :
  globals w !! "path" = Some (VPath p) →
  (∃ body, code_of cell_16 body ∧
     body =
       [For "file" (List [Str "train_tok.npy"; Str "valid_tok.npy"])
          [If (Call (Attribute (Attribute (Name "os") "path") "exists") [tmp_file] [])
              [Expr (Call (Attribute (Name "os") "remove") [tmp_file] [])]]]) ∧
  (∀ e, run_16 w = Raise e →
        ∃ f k, (f = "train_tok.npy" ∨ f = "valid_tok.npy") ∧
               others w !! tmp p f = Some k ∧ e = cannot_remove k (tmp p f)) ∧
  (others w !! tmp p "train_tok.npy" = None →
   others w !! tmp p "valid_tok.npy" = None →
   ∃ w', run_16 w = Ok tt w' ∧
         exists_at (tmp p "train_tok.npy") w' = false ∧
         exists_at (tmp p "valid_tok.npy") w' = false ∧
         files w' = files w ∖ {[tmp p "train_tok.npy"; tmp p "valid_tok.npy"]} ∧
         globals w' = <["file" := VStr "valid_tok.npy"]> (globals w) ∧
         others w' = others w ∧ models w' = models w ∧ heap w' = heap w ∧
         stdout w' = stdout w ∧ log w' = log w).
Proof.
  intros Hp. split; [ exists code_16; split; by_eval | ]. split.
  - intros e. rewrite (run_16_cases w p Hp).
    destruct (others w !! tmp p "train_tok.npy") as [k|] eqn:Ha.
    { intros [= <-]. exists "train_tok.npy", k. auto. }
    destruct (others w !! tmp p "valid_tok.npy") as [k|] eqn:Hb; [ | done ].
    intros [= <-]. exists "valid_tok.npy", k. auto.
  - intros Ha Hb. eexists. split; [ by apply run_16_files | ].
    unfold exists_at. fields. rewrite Ha, Hb, !orb_false_r.
    split; [ apply bool_decide_eq_false_2; set_solver | ].
    split; [ apply bool_decide_eq_false_2; set_solver | done ].
Qed.

(** C8 where [path] is the folder of the sample and the tokens of the
    training set are on disk, with nothing in the way. *)
Lemma C8_cache_deletion_loop_witness :
  let w := on_disk {[tmp folder "train_tok.npy"]} (world_after 13) in
  globals w !! "path" = Some (VPath folder) ∧
  others w !! tmp folder "train_tok.npy" = None ∧
  others w !! tmp folder "valid_tok.npy" = None ∧
  (∀ e, run_16 w ≠ Raise e) ∧
  ∃ w', run_16 w = Ok tt w' ∧
        exists_at (tmp folder "train_tok.npy") w' = false ∧
        exists_at (tmp folder "valid_tok.npy") w' = false ∧
        files w' = files w ∖ {[tmp folder "train_tok.npy"; tmp folder "valid_tok.npy"]} ∧
        globals w' = <["file" := VStr "valid_tok.npy"]> (globals w) ∧
        others w' = others w ∧ models w' = models w ∧ heap w' = heap w ∧
        stdout w' = stdout w ∧ log w' = log w.
Proof.
  intros w.
  assert (Hp : globals w !! "path" = Some (VPath folder)) by (vm_compute; reflexivity).
  assert (Ha : others w !! tmp folder "train_tok.npy" = None) by (vm_compute; reflexivity).
  assert (Hb : others w !! tmp folder "valid_tok.npy" = None) by (vm_compute; reflexivity).
  destruct (C8_cache_deletion_loop w folder Hp) as (_ & Hraise & Hret).
  split; [ exact Hp | ]. split; [ exact Ha | ]. split; [ exact Hb | ].
  split; [ | exact (Hret Ha Hb) ].
  intros e He. destruct (Hraise e He) as (f & k & [-> | ->] & Hk & _); congruence.
Defined.

(** *** Preprocessing and its cache *)

Lemma preprocess_miss (w : world) (p n : string) :
  tmp p (n +:+ "_tok.npy") ∉ files w →
  preprocess p n w =
    Ok tt (World (globals w) (files w ∪ list_to_set (artifacts p n)) (others w) (models w)
                 (heap w)
                 (stdout w ++ [Said (ln ("Numericalizing " +:+ n +:+ "."))])
                 (log w ++ [Preprocessed n])).
Proof.
  intros Hout. unfold preprocess, cached, artifacts. cbn [forallb].
  rewrite bool_decide_eq_false_2 by done. reflexivity.
Qed.

Lemma preprocess_hit (w : world) (p n : string) :
  list_to_set (artifacts p n) ⊆ files w →
  preprocess p n w =
    Ok tt (World (globals w) (files w) (others w) (models w) (heap w) (stdout w)
                 (log w ++ [Loaded n])).
Proof.
  intros Hin. unfold preprocess.
  assert (cached p n w = true) as ->; [ | reflexivity ].
  unfold cached. apply forallb_forall. intros f Hf%list_elem_of_In.
  apply bool_decide_eq_true_2. set_solver.
Qed.

(** The files of the cache over the session. *)
Lemma train_tok_gone (F : gset string) :
  tmp folder ("train" +:+ "_tok.npy") ∉ disk_after 16 F.
Proof.
  change (disk_after 16 F) with
    (F ∖ {[tmp folder "train_tok.npy"; tmp folder "valid_tok.npy"]}).
  change ("train" +:+ "_tok.npy") with "train_tok.npy". set_solver.
Qed.

Lemma valid_tok_gone (F : gset string) :
  tmp folder ("valid" +:+ "_tok.npy") ∉ disk_after 17 F.
Proof.
  change (disk_after 17 F) with
    (F ∖ {[tmp folder "train_tok.npy"; tmp folder "valid_tok.npy"]} ∪
     list_to_set (artifacts folder "train")).
  change ("valid" +:+ "_tok.npy") with "valid_tok.npy".
  intros [Hin | Hin]%elem_of_union; [ set_solver | ].
  apply elem_of_list_to_set in Hin. revert Hin. compute_done.
Qed.

Lemma train_cached (F : gset string) (i : nat) :
  17 ≤ i → list_to_set (artifacts folder "train") ⊆ disk_after i F.
Proof.
  intros Hi. unfold disk_after.
  rewrite !(bool_decide_eq_false_2 (i < _)) by lia.
  case_bool_decide; set_solver.
Qed.

Lemma valid_cached (F : gset string) :
  list_to_set (artifacts folder "valid") ⊆ disk_after 19 F.
Proof.
  change (disk_after 19 F) with
    (disk_after 17 F ∪ list_to_set (artifacts folder "valid")). set_solver.
Qed.

(** *** The run from any disk *)

Lemma run_cons (i : nat) (c : py unit) (cs : list (nat * py unit)) (w w' : world)
    (ws : list (nat * world)) :
  run_cell c w = Ok tt w' → run cs w' = inr ws → run ((i, c) :: cs) w = inr ((i, w') :: ws).
Proof. cbn [run]. by intros -> ->. Qed.

(** A cell that does not look at the disk: the files are any. *)
Ltac quiet_cell :=
  lazymatch goal with
  | |- run_cell _ (on_disk ?D _) = Ok tt (on_disk ?D' _) =>
      change D' with D; generalize D; intro; vm_compute; reflexivity
  | |- _ => vm_compute; reflexivity
  end.

Ltac same_world :=
  unfold set, alloc, ret, on_disk; fields;
  f_equal; f_equal;
  lazymatch goal with
  | |- @eq (gset string) _ _ => reflexivity
  | |- _ => closed
  end.

Ltac indexes :=
  unfold run_on;
  let r := eval vm_compute in (cells.*1) in change (cells.*1) with r;
  cbn [fmap list_fmap].

(** Whatever is on disk when the session starts, the cells run to the
    end, and but for the files the worlds are those of the run from an
    empty disk. *)
Lemma run_on_any_disk (F : gset string) :
  run cells (fresh F) = inr (run_on F).
Proof.
  unfold cells. indexes.
  do 5 (eapply run_cons; [ quiet_cell | ]).
  eapply run_cons.
  { unfold run_cell. rewrite (run_16_files _ folder) by closed. same_world. }
  eapply run_cons.
  { unfold run_cell, run_17. tidy. steps.
    next_with ltac:(apply preprocess_miss; apply train_tok_gone). tidy.
    steps. same_world. }
  eapply run_cons.
  { unfold run_cell, run_19. tidy. steps.
    next_with ltac:(apply preprocess_hit; apply train_cached; lia). tidy. steps.
    next_with ltac:(apply preprocess_miss; apply valid_tok_gone). tidy. steps.
    next_with ltac:(apply preprocess_hit; apply (train_cached F 19); lia). tidy. steps.
    next_with ltac:(apply preprocess_hit; apply valid_cached). tidy. steps.
    same_world. }
  do 6 (eapply run_cons; [ quiet_cell | ]).
  reflexivity.
Qed.

(** A property of the worlds of a run that does not look at the disk. *)
Ltac any_disk :=
  lazymatch goal with
  | |- context [on_disk ?D _] => generalize D; intro
  end.
Ltac each_world tac :=
  indexes; repeat (apply Forall_cons_2; [ cbn [fst snd]; try any_disk; tac | ]);
  apply Forall_nil_2.

Ltac as_captured :=
  unfold captured;
  lazymatch goal with
  | |- Forall2 _ ?l ?r =>
      let l' := eval vm_compute in l in
      let r' := eval vm_compute in r in
      replace l with l' by closed; replace r with r' by closed
  end;
  repeat first [ apply Forall2_nil_2 | apply Forall2_cons_2; [ closed | ] ].

(** The session prints what the notebook has captured: for every code
    cell, the text the cell writes in the session is the text of the
    cell's stream output, and a fit writes a log where the notebook has
    one. *)
Lemma outputs_as_captured (F : gset string) :
  Forall (λ iw, captured iw.1 iw.2) (run_on F).
Proof. each_world as_captured. Qed.

(** C5: whatever is on disk when the session starts, [from_df] in cell
    17 tokenizes and numericalizes the training set, prints the notice
    the notebook shows and leaves the artifacts on disk; then
    [TextLMDataBunch.from_csv] loads the training set from them and
    preprocesses the validation set only; and over the whole of cell 19,
    which makes the classifier data too, nothing else is preprocessed
    and the one notice the notebook shows is printed. *)
Theorem C5_preprocessing_is_cached (on : gset string) :
  ∃ ws w16 w17 w19,
    run cells (fresh on) = inr ws ∧
    ws !! 5 = Some (16, w16) ∧ ws !! 6 = Some (17, w17) ∧ ws !! 7 = Some (19, w19) ∧
    log w17 = log w16 ++ [Preprocessed "train"] ∧
    stdout w17 = [Said (ln "Numericalizing train.")] ∧
    captured 17 w17 ∧
    list_to_set (artifacts folder "train") ⊆ files w17 ∧
    (∃ d w', TextLMDataBunch_from_csv (VPath folder) w17 = Ok d w' ∧
             log w' = log w17 ++ [Loaded "train"; Preprocessed "valid"]) ∧
    log w19 = log w17 ++ [Loaded "train"; Preprocessed "valid"; Loaded "train"; Loaded "valid"] ∧
    stdout w19 = [Said (ln "Numericalizing valid.")] ∧
    captured 19 w19.
Proof.
  exists (run_on on), (on_disk (disk_after 16 on) (world_after 16)),
         (on_disk (disk_after 17 on) (world_after 17)),
         (on_disk (disk_after 19 on) (world_after 19)).
  pose proof (outputs_as_captured on) as Hout. rewrite Forall_lookup in Hout.
  split; [ apply run_on_any_disk | ].
  split; [ reflexivity | ]. split; [ reflexivity | ]. split; [ reflexivity | ].
  split; [ tidy; closed | ]. split; [ tidy; closed | ].
  split; [ apply (Hout 6 (17, _)); reflexivity | ].
  split; [ tidy; by apply train_cached | ].
  split.
  { do 2 eexists. split.
    - tidy. steps.
      next_with ltac:(apply preprocess_hit; apply train_cached; lia). tidy. steps.
      next_with ltac:(apply preprocess_miss; apply valid_tok_gone). tidy. steps.
      reflexivity.
    - tidy. closed. }
  split; [ tidy; closed | ]. split; [ tidy; closed | ].
  apply (Hout 7 (19, _)); reflexivity.
Qed.

(** *** The vocabulary of the two data bunches *)

(** C9: the statement that makes [data_clas] passes
    [data_lm.train_ds.vocab] as its vocabulary, and no later statement
    binds [data_lm] or [data_clas].  In the session, from cell 19 to the
    end, [data_lm.train_ds.vocab] and [data_clas.train_ds.vocab] are one
    object; the names stay bound to the same data bunches, and no object
    that is there after cell 19 changes. *)
Theorem C9_one_vocabulary (on : gset string) :
  (∃ body, code_of cell_19 body ∧
     last body =
       Some (Assign "data_clas"
               (Call (Attribute (Name "TextClasDataBunch") "from_csv") [Name "path"]
                     [("vocab", Attribute (Attribute (Name "data_lm") "train_ds") "vocab");
                      ("bs", Int 32)]))) ∧
  Forall (λ s, ("data_lm" ∉ binds s) ∧ ("data_clas" ∉ binds s)) (mjoin (drop 20 text_code)) ∧
  ∃ ws w19 v,
    run cells (fresh on) = inr ws ∧ ws !! 7 = Some (19, w19) ∧
    heap w19 !! v = Some (OVocab (itos folder)) ∧
    Forall (λ iw, 19 ≤ iw.1 →
                  vocab_of "data_lm" iw.2 = Some v ∧ vocab_of "data_clas" iw.2 = Some v ∧
                  globals iw.2 !! "data_lm" = globals w19 !! "data_lm" ∧
                  globals iw.2 !! "data_clas" = globals w19 !! "data_clas" ∧
                  take (length (heap w19)) (heap iw.2) = heap w19) ws.
Proof.
  split; [ exists code_19; split; closed | ].
  split; [ compute_done | ].
  exists (run_on on), (on_disk (disk_after 19 on) (world_after 19)), 2.
  split; [ apply run_on_any_disk | ]. split; [ reflexivity | ].
  split; [ tidy; closed | ].
  each_world ltac:(first [ intros Hle; exfalso; revert Hle; compute_done
                         | intros _; tidy; repeat split; closed ]).
Qed.

(** *** The learner that was made last *)

(** The methods of a learner, on the learner at the end of the heap. *)
Section last_learner.
Context (g : gmap string value) (f : gset string) (ot : gmap string entry).
Context (m : gmap string model).
Context (h : list obj) (l : learner) (o : list printed) (lg : list event).

Let w : world := World g f ot m (h ++ [OLearner l]) o lg.
Let learn : value := VRef (length h).

Lemma get_last_learner : get_learner (length h) w = Ok l w.
Proof.
  unfold get_learner, bind, deref, w. fields.
  by rewrite list_lookup_middle.
Qed.

Lemma store_last_learner (l' : learner) :
  store (length h) (OLearner l') w = Ok tt (World g f ot m (h ++ [OLearner l']) o lg).
Proof.
  unfold store, w. fields. do 2 f_equal.
  rewrite insert_app_r_alt by lia. by rewrite Nat.sub_diag.
Qed.

Lemma fit_last_learner (cyc : N) (max_lr : expr) :
  fit_one_cycle learn cyc max_lr w =
  Ok tt (World g f ot m
           (h ++ [OLearner (Learner (l_data l)
                    (fitted (l_model l) (FitStep (l_data l) (l_frozen l) cyc max_lr))
                    (l_frozen l))])
           (o ++ [TrainingLog cyc]) lg).
Proof.
  unfold fit_one_cycle, learn.
  next ltac:(reflexivity). next ltac:(apply get_last_learner).
  next ltac:(apply store_last_learner). reflexivity.
Qed.

Lemma set_frozen_last_learner (s : freeze_state) :
  set_frozen learn s w =
  Ok tt (World g f ot m (h ++ [OLearner (Learner (l_data l) (l_model l) s)]) o lg).
Proof.
  unfold set_frozen, learn.
  next ltac:(reflexivity). next ltac:(apply get_last_learner).
  apply store_last_learner.
Qed.

Lemma load_encoder_last_learner (name : string) (saved : model) :
  m !! name = Some saved →
  load_encoder learn name w =
  Ok tt (World g f ot m
           (h ++ [OLearner (Learner (l_data l) (with_encoder_of (l_model l) saved)
                                    (l_frozen l))]) o lg).
Proof.
  intros Hm. unfold load_encoder, learn.
  next ltac:(reflexivity). next ltac:(apply get_last_learner).
  unfold w at 1. fields. rewrite Hm. apply store_last_learner.
Qed.
End last_learner.

(** *** The classifier phase *)

(** Where [data_clas] is a data bunch and an encoder is saved as
    ['ft_enc'], the classifier phase returns.  It binds [learn] to a new
    learner, which is made of the data bunch and the saved encoder and of
    nothing else; it leaves every object that was there as it was. *)
Lemma classifier_phase_frame (w : world) (d tr va : ref) (t : task) (bs : N)
    (saved : model) :
  globals w !! "data_clas" = Some (VRef d) →
  heap w !! d = Some (OBunch t tr va bs) →
  models w !! "ft_enc" = Some saved →
  classifier_phase w =
    Ok tt (World (<["learn" := VRef (length (heap w))]> (globals w)) (files w) (others w)
                 (models w) (heap w ++ [OLearner (classifier_on d saved)])
                 (stdout w ++ [TrainingLog 1; TrainingLog 1; TrainingLog 1]) (log w)).
Proof.
  intros Hd Hb Hs. destruct w as [g f ot m h o lg]. cbn [globals heap models] in *.
  assert (Hl : ∀ f' m' h' o' lg',
             get "learn" (World (<["learn" := VRef (length h)]> g) f' ot m' h' o' lg')
             = Ok (VRef (length h))
                  (World (<["learn" := VRef (length h)]> g) f' ot m' h' o' lg')).
  { intros. apply get_ok. apply lookup_insert_eq. }
  unfold classifier_phase, run_30, run_32, run_33.
  unfold RNNLearner_classifier, new_learner, freeze_to, unfreeze.
  next ltac:(apply get_ok; exact Hd).
  next ltac:(reflexivity).
  next ltac:(unfold deref; fields; rewrite Hb; reflexivity).
  do 3 next ltac:(reflexivity). fields.
  next ltac:(apply Hl). next ltac:(by apply load_encoder_last_learner).
  next ltac:(apply Hl). next ltac:(apply fit_last_learner).
  next ltac:(apply Hl). next ltac:(apply set_frozen_last_learner).
  next ltac:(apply Hl). next ltac:(apply fit_last_learner).
  next ltac:(apply Hl). next ltac:(apply set_frozen_last_learner).
  next ltac:(apply Hl).
  rewrite fit_last_learner. cbn [l_data l_model l_frozen].
  unfold classifier_on. rewrite <- !app_assoc. reflexivity.
Qed.

(** [learn] is only ever bound and called on: no statement passes it on
    or binds another name to it. *)
Lemma learn_has_no_alias : Forall (λ s, "learn" ∉ passed s) statements.
Proof. compute_done. Qed.

(** C10: [learn] is bound twice, to the language model learner and then
    to the classifier, and is never passed on, so that no name refers to
    the language model learner once the classifier is made.  Whatever is
    on disk when the session starts, after cell 27 the model of the
    language model learner is saved as ['ft_enc']; from cell 30 on
    [learn] is another learner, the language model learner is as it was,
    and in the end [learn] is the learner the classifier phase makes of
    [data_clas] and the saved encoder.  And in any world where
    [data_clas] is a data bunch and an encoder is saved as ['ft_enc'],
    the classifier phase makes that learner of these two and changes no
    object that was there: nothing else of the language model learner
    enters. *)
Theorem C10_classifier_phase (on : gset string) :
  filter (λ s, bool_decide ("learn" ∈ binds s)) statements =
    [Assign "learn" (Call (Attribute (Name "RNNLearner") "language_model") [Name "data_lm"]
                          [("pretrained_model", Attribute (Name "URLs") "WT103");
                           ("drop_mult", Float "0.5")]);
     Assign "learn" (Call (Attribute (Name "RNNLearner") "classifier") [Name "data_clas"]
                          [("drop_mult", Float "0.5")])] ∧
  Forall (λ s, "learn" ∉ passed s) statements ∧
  (∃ ws w27 w33 r lm d,
     run cells (fresh on) = inr ws ∧ ws !! 10 = Some (27, w27) ∧ ws !! 13 = Some (33, w33) ∧
     learner_of "learn" w27 = Some (r, lm) ∧
     models w27 !! "ft_enc" = Some (l_model lm) ∧
     globals w27 !! "data_clas" = Some (VRef d) ∧
     Forall (λ iw, 30 ≤ iw.1 →
                   globals iw.2 !! "learn" = Some (VRef (S r)) ∧
                   heap iw.2 !! r = Some (OLearner lm) ∧
                   globals iw.2 !! "data_clas" = Some (VRef d)) ws ∧
     learner_of "learn" w33 = Some (S r, classifier_on d (l_model lm))) ∧
  (∀ (w : world) (d tr va : ref) (t : task) (bs : N) (saved : model),
     globals w !! "data_clas" = Some (VRef d) →
     heap w !! d = Some (OBunch t tr va bs) →
     models w !! "ft_enc" = Some saved →
     classifier_phase w =
       Ok tt (World (<["learn" := VRef (length (heap w))]> (globals w)) (files w) (others w)
                    (models w) (heap w ++ [OLearner (classifier_on d saved)])
                    (stdout w ++ [TrainingLog 1; TrainingLog 1; TrainingLog 1]) (log w))).
Proof.
  split; [ closed | ]. split; [ exact learn_has_no_alias | ]. split.
  - exists (run_on on), (on_disk (disk_after 27 on) (world_after 27)),
           (on_disk (disk_after 33 on) (world_after 33)), 9.
    eexists _, 8.
    split; [ apply run_on_any_disk | ].
    split; [ reflexivity | ]. split; [ reflexivity | ].
    split; [ generalize (disk_after 27 on); intro; closed | ].
    split; [ tidy; closed | ]. split; [ tidy; closed | ].
    split; [ | generalize (disk_after 33 on); intro; closed ].
    each_world ltac:(first [ intros Hle; exfalso; revert Hle; compute_done
                           | intros _; tidy; repeat split; closed ]).
  - exact classifier_phase_frame.
Qed.

(** C10 in the world after cell 27 of the session that starts on an
    empty disk: there [data_clas] is the data bunch at reference 8 and
    ['ft_enc'] is saved, and the classifier phase makes its learner of
    them. *)
Lemma C10_classifier_phase_witness :
  let w := world_after 27 in
  ∃ saved,
    globals w !! "data_clas" = Some (VRef 8) ∧
    heap w !! 8 = Some (OBunch classifier 6 7 32) ∧
    models w !! "ft_enc" = Some saved ∧
    classifier_phase w =
      Ok tt (World (<["learn" := VRef (length (heap w))]> (globals w)) (files w) (others w)
                   (models w) (heap w ++ [OLearner (classifier_on 8 saved)])
                   (stdout w ++ [TrainingLog 1; TrainingLog 1; TrainingLog 1]) (log w)).
Proof.
  intros w.
  destruct (C10_classifier_phase ∅) as (_ & _ & _ & Hframe).
  eexists.
  assert (Hd : globals w !! "data_clas" = Some (VRef 8)) by (vm_compute; reflexivity).
  assert (Hb : heap w !! 8 = Some (OBunch classifier 6 7 32)) by (vm_compute; reflexivity).
  split; [ exact Hd | ]. split; [ exact Hb | ].
  split; [ vm_compute; reflexivity | ].
  apply (Hframe w 8 6 7 classifier 32%N _ Hd Hb). vm_compute; reflexivity.
Defined.

(** *** The order of the classifier's steps *)

(** C6: the notebook saves the encoder as ['ft_enc'] after the fits of
    the language model, makes the classifier, and on it calls
    [load_encoder('ft_enc')], a fit, [freeze_to(-2)], a fit, [unfreeze]
    and a fit, in this order.  In the session, whatever is on disk at
    its start, the learner in the end is the one made of the saved
    encoder, loaded before the first fit, by a fit while frozen, a fit
    while frozen to [-2] and a fit while unfrozen. *)
Theorem C6_save_load_and_unfreeze (on : gset string) :
  learn_events statements =
    [makes "language_model";
     method "fit_one_cycle" [Int 1; Float "1e-2"];
     method "unfreeze" [];
     method "fit_one_cycle" [Int 1; Float "1e-3"];
     method "save_encoder" [Str "ft_enc"];
     makes "classifier";
     method "load_encoder" [Str "ft_enc"];
     method "fit_one_cycle" [Int 1; Float "1e-2"];
     method "freeze_to" [USub (Int 2)];
     method "fit_one_cycle" [Int 1; max_lr_32];
     method "unfreeze" [];
     method "fit_one_cycle" [Int 1; max_lr_33]] ∧
  ∃ ws w r d saved,
    run cells (fresh on) = inr ws ∧ last ws = Some (33, w) ∧
    models w !! "ft_enc" = Some saved ∧
    learner_of "learn" w =
      Some (r, Learner d
                 (fitted
                    (fitted
                       (fitted (with_encoder_of (created classifier "0.5") saved)
                               (FitStep d frozen 1 (Float "1e-2")))
                       (FitStep d (frozen_to (-2)) 1 max_lr_32))
                    (FitStep d unfrozen 1 max_lr_33))
                 unfrozen).
Proof.
  split; [ exact learn_events_in_order | ].
  exists (run_on on), (on_disk (disk_after 33 on) (world_after 33)).
  eexists _, _, _.
  split; [ apply run_on_any_disk | ]. split; [ reflexivity | ].
  split; [ tidy; closed | ].
  generalize (disk_after 33 on); intro; closed.
Qed.

(** *** The outputs, in one run and in another *)

(** The cell that shows the classes has an output and calls no fit. *)
Lemma classes_cell_does_not_train :
  notebook !! 13 = Some (cell_13, code_13) ∧
  has_output cell_13 = true ∧ trains code_13 = false.
Proof. split; [ | split ]; by_eval. Qed.

(** The output of a cell in a run, computed: the run is the one from
    any disk, and the world after a cell does not depend on the files
    but in its files. *)
Ltac output_of_cell :=
  unfold output_in; rewrite run_on_any_disk; indexes;
  repeat lazymatch goal with
         | |- context [disk_after ?i ?on] => generalize (disk_after i on); intro
         end;
  vm_compute.

Section runs.
Variable fit_log : seed → model → string.

(** What the cells that do not train show is the same in every run. *)
Lemma outputs_without_training :
  Forall2 (λ i out, ∀ r, output_in fit_log r i = Some out)
    [9; 11; 13; 17; 19]
    [([], Some (VPath folder));
     ([], Some (VRows (join folder "train.csv") 5));
     ([], Some (VTuple [VItem (join folder "classes.txt") 0;
                        VItem (join folder "classes.txt") 1]));
     ([ln "Numericalizing train."], None);
     ([ln "Numericalizing valid."], None)].
Proof.
  repeat (apply Forall2_cons_2;
          [ intros [s on]; cbn [seed_of disk_of]; output_of_cell; reflexivity | ]).
  apply Forall2_nil_2.
Qed.

(** What a cell that trains shows is the log of its fit and nothing
    else: the log of one model, in the run's seed. *)
Lemma outputs_of_training :
  Forall (λ i, ∃ m, ∀ r, output_in fit_log r i = Some ([fit_log (seed_of r) m], None))
         [23; 25; 30; 32; 33].
Proof.
  repeat (apply Forall_cons_2;
          [ lazymatch goal with
            | |- ∃ m, ∀ r, output_in _ r ?i = _ =>
                let l := eval vm_compute in (learner_of "learn" (world_after i)) in
                lazymatch l with
                | Some (_, ?l) => exists (l_model l)
                end
            end;
            intros [s on]; cbn [seed_of disk_of]; output_of_cell; reflexivity
          | ]).
  apply Forall_nil_2.
Qed.

End runs.




(** ** More on the two documents *)

Ltac cell_by_cell :=
  rewrite html_cells_text_html; unfold notebook, text_ipynb, text_code;
  cbn [zip zip_with];
  repeat (apply Forall2_cons_2; [ by_eval | ]); apply Forall2_nil_2.

(** X1: the export keeps the links.  In every cell the targets of the
    links of the page are the targets of the links of the markdown
    source, in the same order; a code cell has none. *)
Theorem X1_links_kept :
  Forall2 (λ c h, html_links h = md_links c) text_ipynb (html_cells text_html).
Proof. cell_by_cell. Qed.

(** X2: the export keeps the headings.  A line of [n] [#] becomes one
    heading of level [n] with the same words; its [id] is these words
    joined by hyphens and its anchor link points to that [id]; and the
    page has no other heading. *)
Theorem X2_headings_kept :
  Forall2 (λ c h, html_headings h =
                  (λ nw, (nw.1, slug nw.2, nw.2, ["#" +:+ slug nw.2])) <$> md_headings c)
          text_ipynb (html_cells text_html).
Proof. cell_by_cell. Qed.

(** X3: the export keeps the lists.  The items of the numbered and of
    the bulleted lists of the page are the list lines of the markdown
    source, in the same order, numbered where the line starts with a
    number and with the same words. *)
Theorem X3_lists_kept :
  Forall2 (λ c h, html_items h = md_items c) text_ipynb (html_cells text_html).
Proof. cell_by_cell. Qed.

(** X4: the highlighting of the page agrees with the code.  For every
    code cell whose input the page shows, the highlighted names,
    builtins, modules, strings, numbers and constants are the tokens of
    the cell's code, in order and each in its class; the other cells
    have none. *)
Theorem X4_highlighting_agrees :
  Forall2 (λ cb h, html_tokens h =
                   if shown cb.1 then mjoin (tokens_stmt <$> cb.2) else [])
          notebook (html_cells text_html).
Proof. cell_by_cell. Qed.

(** X11: the two forms of the frame agree.  For every output of the
    notebook that has a [text/html] and a [text/plain] form, the table
    the page shows for it has the rows of the plain text: the same
    column names in its head, and in every row the same label, the same
    integer and the same text. *)
Theorem X11_frame_forms_agree :
  Forall2 (λ c h, Forall2 same_table (cell_outputs c)
                          (select (has_class "output_area") h))
          text_ipynb (html_cells text_html).
Proof.
  rewrite html_cells_text_html. unfold text_ipynb.
  repeat (apply Forall2_cons_2;
          [ lazymatch goal with
            | |- Forall2 _ ?l ?r =>
                let l' := eval vm_compute in l in
                let r' := eval vm_compute in r in
                replace l with l' by closed; replace r with r' by closed
            end;
            repeat first [ apply Forall2_nil_2 | apply Forall2_cons_2; [ by_eval | ] ]
          | ]).
  apply Forall2_nil_2.
Qed.

(** X12: nothing of a hidden cell is on the page.  A cell of the
    notebook whose [hide_input] flag is set has no output, and the cell
    of the page in its place is empty; and these are the only empty
    cells of the page. *)
Theorem X12_hidden_cells_empty :
  Forall2 (λ c h, is_empty_cell h =
                  match c with code true _ _ => true | _ => false end)
          text_ipynb (html_cells text_html) ∧
  Forall (λ c, match c with code true _ outputs => outputs = [] | _ => True end)
         text_ipynb.
Proof.
  split; [ cell_by_cell | ].
  unfold text_ipynb. repeat (apply Forall_cons_2; [ by_eval | ]). apply Forall_nil_2.
Qed.

(** ** More on the code *)

Lemma filter_nil_Forall {A} (P : A → bool) (l : list A) :
  filter P l = [] ↔ Forall (λ x, P x = false) l.
Proof.
  induction l as [|x l IH]; [ by rewrite filter_nil, Forall_nil | ].
  rewrite filter_cons, Forall_cons. destruct (P x); simpl.
  - split; [ done | by intros [? _] ].
  - rewrite IH. split; [ done | by intros [_ ?] ].
Qed.

(** A name is brought by one of the modules [mods]. *)
Lemma brought_by (exports : string → list string) (mods : list string) (x : string) :
  negb (existsb (λ m, bool_decide (x ∈ exports m)) mods) = false ↔
  ∃ m, m ∈ mods ∧ x ∈ exports m.
Proof.
  rewrite negb_false_iff, existsb_exists. split.
  - intros (m & Hm%list_elem_of_In & Hx%bool_decide_eq_true_1). eauto.
  - intros (m & Hm%list_elem_of_In & Hx). exists m. split; [ done | ].
    by apply bool_decide_eq_true_2.
Qed.

(** X5: the notebook runs top to bottom as far as names go.  Every name
    a statement reads has been bound by an earlier statement or by the
    loop it is in, or is built in, or is one of nine names of the
    library, of [pd] and of [os]; each of these is read only after the
    three star imports of cells 1 and 7.  So no name is read before it
    is bound exactly when the modules of these imports bring the nine
    names.  And every name the notebook binds is read later, but for
    [train_ds]. *)
Theorem X5_names_bound_before_read :
  free_reads statements =
    (λ x, (x, ["fastai.text"; "fastai"; "fastai.gen_doc.nbdoc"])) <$>
      ["untar_data"; "URLs"; "pd"; "read_classes"; "os"; "os"; "TextDataset";
       "TextLMDataBunch"; "TextClasDataBunch"; "RNNLearner"; "URLs"; "RNNLearner"] ∧
  (∀ exports : string → list string,
     unbound exports statements = [] ↔
     Forall (λ x, ∃ m, m ∈ ["fastai.text"; "fastai"; "fastai.gen_doc.nbdoc"] ∧ x ∈ exports m)
            ["untar_data"; "URLs"; "pd"; "read_classes"; "os"; "TextDataset";
             "TextLMDataBunch"; "TextClasDataBunch"; "RNNLearner"]) ∧
  unused statements = ["train_ds"].
Proof.
  assert (Hfree : free_reads statements =
    (λ x, (x, ["fastai.text"; "fastai"; "fastai.gen_doc.nbdoc"])) <$>
      ["untar_data"; "URLs"; "pd"; "read_classes"; "os"; "os"; "TextDataset";
       "TextLMDataBunch"; "TextClasDataBunch"; "RNNLearner"; "URLs"; "RNNLearner"])
    by by_eval.
  split; [ exact Hfree | ]. split; [ | by_eval ].
  intros exports. unfold unbound. rewrite Hfree.
  split.
  - intros H%fmap_nil_inv. apply filter_nil_Forall in H.
    rewrite Forall_fmap in H. rewrite Forall_forall in H.
    apply Forall_forall. intros x Hx. apply (brought_by exports).
    apply (H x). revert Hx. rewrite !elem_of_cons, elem_of_nil. tauto.
  - intros H. rewrite Forall_forall in H.
    lazymatch goal with
    | |- fst <$> ?l = [] => cut (l = []); [ by intros -> | ]
    end.
    apply filter_nil_Forall. rewrite Forall_fmap. apply Forall_forall.
    intros x Hx. apply (brought_by exports). apply H.
    revert Hx. rewrite !elem_of_cons, elem_of_nil. tauto.
Qed.

(** ** More on the session *)

(** X6: the cache-deletion loop can be run again.  Wherever [path] is a
    path and the loop returns, nothing exists at either path in the
    world it leaves, and running the loop again there returns and
    changes nothing: [file] is bound already and there is no file to
    delete. *)
Theorem X6_loop_twice (w w' : world) (p : string) :
  globals w !! "path" = Some (VPath p) →
  run_16 w = Ok tt w' →
  exists_at (tmp p "train_tok.npy") w' = false ∧
  exists_at (tmp p "valid_tok.npy") w' = false ∧
  run_16 w' = Ok tt w' ∧
  (run_16;; run_16) w = Ok tt w'.
Proof.
  intros Hp. rewrite (run_16_cases w p Hp).
  destruct (others w !! tmp p "train_tok.npy") eqn:Ha; [ done | ].
  destruct (others w !! tmp p "valid_tok.npy") eqn:Hb; [ done | ].
  intros [= <-].
  assert (Hagain :
    run_16 (World (<["file" := VStr "valid_tok.npy"]> (globals w))
                  (files w ∖ {[tmp p "train_tok.npy"; tmp p "valid_tok.npy"]})
                  (others w) (models w) (heap w) (stdout w) (log w)) =
    Ok tt (World (<["file" := VStr "valid_tok.npy"]> (globals w))
                 (files w ∖ {[tmp p "train_tok.npy"; tmp p "valid_tok.npy"]})
                 (others w) (models w) (heap w) (stdout w) (log w))).
  { rewrite (run_16_cases _ p); [ | fields; by rewrite lookup_insert_ne ].
    fields. rewrite Ha, Hb, insert_insert_eq. do 2 f_equal. set_solver. }
  unfold exists_at. fields. rewrite Ha, Hb, !orb_false_r.
  split; [ apply bool_decide_eq_false_2; set_solver | ].
  split; [ apply bool_decide_eq_false_2; set_solver | ].
  split; [ exact Hagain | ].
  unfold bind. rewrite (run_16_cases w p Hp), Ha, Hb. exact Hagain.
Qed.

(** X6 in the world after cell 13, with the tokens of the training set
    on disk. *)
Lemma X6_loop_twice_witness :
  let w := on_disk {[tmp folder "train_tok.npy"]} (world_after 13) in
  let w' := on_disk ∅ (world_after 16) in
  globals w !! "path" = Some (VPath folder) ∧
  run_16 w = Ok tt w' ∧
  exists_at (tmp folder "train_tok.npy") w = true ∧
  exists_at (tmp folder "train_tok.npy") w' = false ∧
  exists_at (tmp folder "valid_tok.npy") w' = false ∧
  run_16 w' = Ok tt w' ∧
  (run_16;; run_16) w = Ok tt w'.
Proof.
  intros w w'.
  assert (Hp : globals w !! "path" = Some (VPath folder)) by (vm_compute; reflexivity).
  assert (Hr : run_16 w = Ok tt w') by (vm_compute; reflexivity).
  split; [ exact Hp | ]. split; [ exact Hr | ]. split; [ vm_compute; reflexivity | ].
  exact (X6_loop_twice w w' folder Hp Hr).
Defined.
